(** * Iftar Shondhane: the multi-backend write / read / delete layer

    A shallow embedding of the reconciliation logic of the application:
    the React client ([App]: [handleSubmit], [fetchEvents], [deleteEvent]
    and the latitude / longitude inputs) and the Express server
    ([Server]: the SQLite-backed [/api/events] routes and the Google Drive
    export route [/api/drive/save]).

    The hosted services the code talks to (Supabase, Firestore) are an
    interface ([Backends]); the JavaScript built-ins whose exact tables are
    not part of the program (Unicode lower-casing, date parsing, the value
    of a decimal literal) are an interface too ([Platform]).  Everything the
    program itself decides is written out and computes. *)

From Stdlib Require Import ZArith List String Ascii Bool Lia.
From Stdlib Require Import Floats.PrimFloat DecimalString.
From Stdlib Require Uint63 OrderedTypeEx.
From Stdlib Require Import Sorting.Sorted Sorting.Permutation.
Import ListNotations.

Local Open Scope string_scope.
Local Open Scope Z_scope.
Local Open Scope list_scope.

(* ================================================================== *)
(** ** JavaScript values used by the program *)
(* ================================================================== *)

(** A JS [number] is an IEEE-754 double. *)
Definition number := float.

(** Truthiness of a number: [0], [-0] and [NaN] are falsy. *)
Definition number_truthy (x : number) : bool :=
  negb (PrimFloat.is_nan x || PrimFloat.is_zero x).

(** Truthiness of a string: only the empty string is falsy. *)
Definition string_truthy (s : string) : bool :=
  match s with EmptyString => false | String _ _ => true end.

(** [JSON.stringify] writes [NaN] and the infinities as [null], and
    [-0] as [0]. *)
Definition json_number (x : number) : option number :=
  if PrimFloat.is_nan x || PrimFloat.is_infinity x then None
  else if PrimFloat.is_zero x then Some PrimFloat.zero
  else Some x.

(** [String.prototype.includes]. *)
Fixpoint includes (s sub : string) : bool :=
  String.prefix sub s ||
  match s with
  | EmptyString => false
  | String _ rest => includes rest sub
  end.

(** A number subtraction whose operands may be [NaN] ([None]). *)
Definition num_sub (a b : option Z) : option Z :=
  match a, b with
  | Some x, Some y => Some (x - y)
  | _, _ => None
  end.

(** A stable sort: [x] is placed in front of the first element it may
    precede.  With [Array.prototype.sort] the comparator's result [v]
    keeps [x] in front of [y] unless [v > 0]; a [NaN] result counts as
    [+0].  (For a comparator that is not consistent the order is
    implementation-defined in ECMAScript; this is one admissible order.) *)
Fixpoint insert_by {A : Type} (before : A -> A -> bool) (x : A) (l : list A)
  : list A :=
  match l with
  | [] => [x]
  | y :: l' => if before x y then x :: y :: l' else y :: insert_by before x l'
  end.

Definition stable_sort {A : Type} (before : A -> A -> bool) (l : list A)
  : list A :=
  fold_right (insert_by before) [] l.

Definition Array_sort {A : Type} (comparefn : A -> A -> option Z)
  (l : list A) : list A :=
  stable_sort
    (fun x y => match comparefn x y with
                | Some v => v <=? 0
                | None => true
                end) l.

(** Decimal rendering of an integer, as in a template literal. *)
Definition decimal (n : Z) : string := NilZero.string_of_int (Z.to_int n).

(** [w] decimal digits of [n], zero padded. *)
Fixpoint pad (w : nat) (n : Z) : string :=
  match w with
  | O => ""
  | S w' =>
      String.append (pad w' (n / 10))
        (String (ascii_of_nat (48 + Z.to_nat (n mod 10))) "")
  end.

(** Civil date of a day number counted from 1970-01-01. *)
Definition civil_from_days (z : Z) : Z * Z * Z :=
  let z' := z + 719468 in
  let era := z' / 146097 in
  let doe := z' mod 146097 in
  let yoe := (doe - doe / 1460 + doe / 36524 - doe / 146096) / 365 in
  let y := yoe + era * 400 in
  let doy := doe - (365 * yoe + yoe / 4 - yoe / 100) in
  let mp := (5 * doy + 2) / 153 in
  let d := doy - (153 * mp + 2) / 5 + 1 in
  let m := if mp <? 10 then mp + 3 else mp - 9 in
  (if m <=? 2 then y + 1 else y, m, d).

Definition days_from_civil (y m d : Z) : Z :=
  let y' := if m <=? 2 then y - 1 else y in
  let era := y' / 400 in
  let yoe := y' mod 400 in
  let mp := if 2 <? m then m - 3 else m + 9 in
  let doy := (153 * mp + 2) / 5 + d - 1 in
  let doe := yoe * 365 + yoe / 4 - yoe / 100 + doy in
  era * 146097 + doe - 719468.

(** [new Date(t).toISOString()] for a time value [t] in milliseconds. *)
Definition toISOString (t : Z) : string :=
  let day := t / 86400000 in
  let ms := t mod 86400000 in
  let '(y, m, d) := civil_from_days day in
  let year :=
    if (0 <=? y) && (y <=? 9999) then pad 4 y
    else String.append (if y <? 0 then "-" else "+") (pad 6 (Z.abs y)) in
  String.concat ""
    [year; "-"; pad 2 m; "-"; pad 2 d; "T";
     pad 2 (ms / 3600000); ":"; pad 2 (ms / 60000 mod 60); ":";
     pad 2 (ms / 1000 mod 60); "."; pad 3 (ms mod 1000); "Z"].

(* ================================================================== *)
(** ** Data model *)
(* ================================================================== *)

(** [id: string | number] of the [Event] interface. *)
Inductive EventId : Type :=
| IdStr (s : string)
| IdNum (n : Z).

(** The form state [formData]. *)
Record FormData : Type := mkFormData {
  name : string;
  type : string;
  district : string;
  upazila : string;
  village : string;
  address : string;
  date_range : string;
  start_time : string;
  iftar_time : string;
  contact : string;
  description : string;
  image_url : string;
  lat : option number;      (* [undefined] or a number, possibly [NaN] *)
  lng : option number;
  link_url : string;
  event_date : string;
  event_day : string
}.

(** [newEvent = { ...formData, created_at }]. *)
Record NewEvent : Type := mkNewEvent {
  form : FormData;
  created_at : string
}.

(** An event as it is stored or travels as JSON: every field may be
    missing.  [None] stands for a key that is absent or [null]; the code
    treats both alike ([||], [??], a falsy test, optional chaining). *)
Record EventData : Type := mkEventData {
  e_name : option string;
  e_type : option string;
  e_district : option string;
  e_upazila : option string;
  e_village : option string;
  e_address : option string;
  e_date_range : option string;
  e_start_time : option string;
  e_iftar_time : option string;
  e_contact : option string;
  e_description : option string;
  e_image_url : option string;
  e_lat : option number;
  e_lng : option number;
  e_link_url : option string;
  e_event_date : option string;
  e_event_day : option string;
  e_created_at : option string
}.

(** [{ id, ...data }]. *)
Record Event : Type := mkEvent {
  id : EventId;
  data : EventData
}.

(** The search filters. *)
Record Filters : Type := mkFilters {
  f_district : string;
  f_upazila : string;
  f_village : string;
  f_type : string
}.

(** [JSON.stringify] of a JS coordinate: [undefined] is left out, a
    non-finite number becomes [null]. *)
Definition json_coord (c : option number) : option number :=
  match c with
  | None => None
  | Some x => json_number x
  end.

(** The JSON text of the form fields, read back as an object. *)
Definition json_of_form (f : FormData) (created : option string) : EventData :=
  {| e_name := Some (name f);
     e_type := Some (type f);
     e_district := Some (district f);
     e_upazila := Some (upazila f);
     e_village := Some (village f);
     e_address := Some (address f);
     e_date_range := Some (date_range f);
     e_start_time := Some (start_time f);
     e_iftar_time := Some (iftar_time f);
     e_contact := Some (contact f);
     e_description := Some (description f);
     e_image_url := Some (image_url f);
     e_lat := json_coord (lat f);
     e_lng := json_coord (lng f);
     e_link_url := Some (link_url f);
     e_event_date := Some (event_date f);
     e_event_day := Some (event_day f);
     e_created_at := created |}.

(** [JSON.stringify(newEvent)] and [JSON.stringify(formData)]. *)
Definition JSON_of_newEvent (e : NewEvent) : EventData :=
  json_of_form (form e) (Some (created_at e)).

Definition JSON_of_formData (f : FormData) : EventData :=
  json_of_form f None.

(** The text [JSON.stringify(value, null, indent)], kept as the value it
    denotes together with its indentation. *)
Record JsonText : Type := mkJsonText {
  json_indent : nat;
  json_value : EventData
}.

(** JavaScript and SQLite library functions whose tables are outside the
    program. *)
Class Platform : Type := {
  (** [String.prototype.toLowerCase] *)
  toLowerCase : string -> string;
  (** [new Date(s).getTime()]; [None] is [NaN] (an invalid date) *)
  Date_getTime : string -> option Z;
  (** the number denoted by the longest decimal-literal prefix *)
  StrDecimalLiteral_value : string -> number;
  (** SQLite's NUMERIC affinity applied to a text operand, when the text
      is a well-formed integer *)
  sqlite_text_as_integer : string -> option Z
}.

(* ================================================================== *)
(** ** The server (server.ts) *)
(* ================================================================== *)

Module Server.

(** A row of the SQLite table [events]: the INTEGER PRIMARY KEY and the
    eighteen nullable columns. *)
Record Row : Type := mkRow {
  row_id : Z;
  row_data : EventData
}.

(** The table together with its AUTOINCREMENT counter (the largest rowid
    handed out so far). *)
Record Table : Type := mkTable {
  rows : list Row;
  seq : Z
}.

(** A file or folder of the connected Google Drive account. *)
Record DriveFile : Type := mkDriveFile {
  file_id : nat;
  file_name : string;
  file_mimeType : string;
  file_parents : list nat;
  file_body : option JsonText;
  file_trashed : bool
}.

(** The Drive API requests the server issues. *)
Inductive DriveCall : Type :=
| files_list (q : string)
| files_create_folder (folder : string)
| files_create_file (file : string) (parents : list nat) (media : JsonText).

Definition Tokens := string.

(** The process state: the database handle [db] ([None] when opening the
    database failed at start-up), the session's [tokens], and, on the
    Google side, the account's files and the requests received (with
    whether each one succeeded). *)
Record State : Type := mkState {
  db : option Table;
  tokens : option Tokens;
  drive : list DriveFile;
  drive_calls : list (DriveCall * bool)
}.

(** What can go wrong below the handlers during one request: the SQLite
    statement, and each Drive request. *)
Record Faults : Type := mkFaults {
  stmt_fails : bool;
  files_list_fails : bool;
  folder_create_fails : bool;
  file_create_fails : bool
}.

Inductive Body : Type :=
| ErrorBody (error : string)                 (* [{ error }] *)
| SuccessBody                                (* [{ success: true }] *)
| SuccessId (id : Z)                         (* [{ success: true, id }] *)
| SuccessFile (fileId : nat)                 (* [{ success: true, fileId }] *)
| EventsBody (events : list Row)
| ConnectedBody (connected : bool)           (* [{ connected }] *)
| TextBody (text : string).

Record Response : Type := mkResponse {
  status : Z;
  body : Body
}.

Definition set_db (t : Table) (st : State) : State :=
  {| db := Some t; tokens := tokens st; drive := drive st;
     drive_calls := drive_calls st |}.

Definition set_tokens (tk : Tokens) (st : State) : State :=
  {| db := db st; tokens := Some tk; drive := drive st;
     drive_calls := drive_calls st |}.

Definition log_call (c : DriveCall) (ok : bool) (st : State) : State :=
  {| db := db st; tokens := tokens st; drive := drive st;
     drive_calls := drive_calls st ++ [(c, ok)] |}.

Definition add_file (f : DriveFile) (st : State) : State :=
  {| db := db st; tokens := tokens st; drive := drive st ++ [f];
     drive_calls := drive_calls st |}.

(** The page [GET /auth/google/callback] sends after a successful
    exchange: it posts [GOOGLE_AUTH_SUCCESS] to the opener and closes. *)
Definition auth_success_page : string := "
        <html>
          <body>
            <script>
              if (window.opener) {
                window.opener.postMessage({ type: 'GOOGLE_AUTH_SUCCESS' }, '*');
                window.close();
              } else {
                window.location.href = '/';
              }
            </script>
            <p>Authentication successful. This window should close automatically.</p>
          </body>
        </html>
      ".

(** [req.secure]: the server listens with [app.listen], plain HTTP, and
    does not set ['trust proxy']. *)
Definition connection_secure : bool := false.

(** The session cookie is configured [secure: true]: express-session
    sends it only on a secure connection.  A browser that was sent no
    cookie starts a new session with its next request. *)
Definition session_cookie_sent : bool := connection_secure.

(** [GET /auth/google/callback]: [exchanged] is what
    [oauth2Client.getToken(code)] gave ([None] when it threw).  The
    tokens are put in the session of this request; the requests that
    follow see them only if the session's cookie was sent. *)
Definition auth_callback (exchanged : option Tokens) (st : State)
  : Response * State :=
  match exchanged with
  | Some tk => (mkResponse 200 (TextBody auth_success_page),
                if session_cookie_sent then set_tokens tk st else st)
  | None => (mkResponse 500 (TextBody "Authentication failed"), st)
  end.

(** [GET /api/auth/google/status]. *)
Definition auth_status (st : State) : Response :=
  mkResponse 200
    (ConnectedBody (match tokens st with Some _ => true | None => false end)).

(** SQLite's order on the values of the TEXT column [created_at]: NULL is
    smaller than every text, texts compare byte by byte. *)
Definition sql_le (a b : option string) : bool :=
  match a, b with
  | None, _ => true
  | Some _, None => false
  | Some x, Some y => String.leb x y
  end.

(** [SELECT * FROM events ORDER BY created_at DESC].  (SQL leaves the
    order of rows with equal keys open; the stable order is one of the
    admissible ones.) *)
Definition select_events (t : Table) : list Row :=
  stable_sort
    (fun a b => sql_le (e_created_at (row_data b)) (e_created_at (row_data a)))
    (rows t).

(** [GET /api/events]. *)
Definition get_events (fl : Faults) (st : State) : Response :=
  match db st with
  | None => mkResponse 500 (ErrorBody "Database not initialized")
  | Some t =>
      if stmt_fails fl then mkResponse 500 (ErrorBody "Failed to fetch events")
      else mkResponse 200 (EventsBody (select_events t))
  end.

(** [v || null] on a text field. *)
Definition or_null (v : option string) : option string :=
  match v with
  | Some s => if string_truthy s then Some s else None
  | None => None
  end.

(** The values bound by [stmt.run(...)] in [POST /api/events]. *)
Definition insert_values (now : Z) (event : EventData) : EventData :=
  {| e_name := or_null (e_name event);
     e_type := or_null (e_type event);
     e_district := or_null (e_district event);
     e_upazila := or_null (e_upazila event);
     e_village := or_null (e_village event);
     e_address := or_null (e_address event);
     e_date_range := or_null (e_date_range event);
     e_start_time := or_null (e_start_time event);
     e_iftar_time := or_null (e_iftar_time event);
     e_contact := or_null (e_contact event);
     e_description := or_null (e_description event);
     e_image_url := or_null (e_image_url event);
     e_lat := e_lat event;                              (* [?? null] *)
     e_lng := e_lng event;
     e_link_url := or_null (e_link_url event);
     e_event_date := or_null (e_event_date event);
     e_event_day := or_null (e_event_day event);
     e_created_at :=
       match or_null (e_created_at event) with
       | Some s => Some s
       | None => Some (toISOString now)
       end |}.

(** [POST /api/events]. *)
Definition post_events (fl : Faults) (now : Z) (event : EventData)
  (st : State) : Response * State :=
  match db st with
  | None => (mkResponse 500 (ErrorBody "Database not initialized"), st)
  | Some t =>
      if stmt_fails fl
      then (mkResponse 500 (ErrorBody "Failed to add event to database"), st)
      else
        let lastInsertRowid := seq t + 1 in
        let row := mkRow lastInsertRowid (insert_values now event) in
        (mkResponse 200 (SuccessId lastInsertRowid),
         set_db (mkTable (rows t ++ [row]) lastInsertRowid) st)
  end.

(** The [id] of the body of [POST /api/events/delete], as JSON gives it:
    missing, [null], a string, an integer-valued number, another number,
    an array, or another value (a boolean, an object). *)
#[warnings="-register-all"] Inductive JsonId : Type :=
| JIdMissing
| JIdNull
| JIdStr (s : string)
| JIdNum (n : Z)
| JIdFrac
| JIdArray (elements : list JsonId)
| JIdOther.

(** The values better-sqlite3 binds to a [?]: [undefined] and [null] (as
    NULL), strings and numbers. *)
Definition binds_as_value (i : JsonId) : bool :=
  match i with
  | JIdMissing | JIdNull | JIdStr _ | JIdNum _ | JIdFrac => true
  | JIdArray _ | JIdOther => false
  end.

(** What [stmt.run(id)] binds to the one [?] of the statement, [None]
    when it throws.  An array is taken as the list of the parameters: it
    has to hold exactly one value.  A boolean is refused, and an object
    is taken as named parameters, which leaves the [?] unbound. *)
Definition bound_parameter (i : JsonId) : option JsonId :=
  match i with
  | JIdArray [x] => if binds_as_value x then Some x else None
  | JIdArray _ => None
  | JIdOther => None
  | _ => Some i
  end.

Definition bindable (i : JsonId) : bool :=
  match bound_parameter i with Some _ => true | None => false end.

(** [id = v] on the INTEGER PRIMARY KEY column, for a bound value [v]:
    NULL equals nothing. *)
Definition id_equals `{Platform} (rowid : Z) (v : JsonId) : bool :=
  match v with
  | JIdNum n => rowid =? n
  | JIdStr s =>
      match sqlite_text_as_integer s with
      | Some n => rowid =? n
      | None => false
      end
  | _ => false
  end.

(** [id = ?] once [stmt.run(id)] has bound its parameter. *)
Definition id_matches `{Platform} (rowid : Z) (i : JsonId) : bool :=
  match bound_parameter i with
  | Some v => id_equals rowid v
  | None => false
  end.

(** [db.prepare("DELETE FROM events WHERE id = ?").run(id)]; [None] when
    it throws. *)
Definition run_delete `{Platform} (fl : Faults) (i : JsonId) (t : Table)
  : option Table :=
  if stmt_fails fl || negb (bindable i) then None
  else Some (mkTable (filter (fun r => negb (id_matches (row_id r) i)) (rows t))
                     (seq t)).

(** [POST /api/events/delete]. *)
Definition post_events_delete `{Platform} (fl : Faults) (i : JsonId)
  (st : State) : Response * State :=
  match db st with
  | None => (mkResponse 500 (ErrorBody "Database not initialized"), st)
  | Some t =>
      match run_delete fl i t with
      | Some t' => (mkResponse 200 SuccessBody, set_db t' st)
      | None => (mkResponse 500 (ErrorBody "Failed to delete event"), st)
      end
  end.

Definition folder_name : string := "Iftar Shondhane".
Definition folder_mimeType : string := "application/vnd.google-apps.folder".
Definition json_mimeType : string := "application/json".
Definition folder_query : string :=
  "name = 'Iftar Shondhane' and mimeType = 'application/vnd.google-apps.folder' and trashed = false".

(** What Drive answers to [folder_query]. *)
Definition list_folders (d : list DriveFile) : list DriveFile :=
  filter (fun f => String.eqb (file_name f) folder_name
                   && String.eqb (file_mimeType f) folder_mimeType
                   && negb (file_trashed f)) d.

(** Drive gives a created file an identifier no other file has. *)
Definition fresh_id (d : list DriveFile) : nat :=
  S (fold_right Nat.max O (map file_id d)).

(** The body of [POST /api/drive/save].  [eventData] is [None] when the
    body has no such key or has [null] there.  [EventData] holds a name
    that is [null] and a name that is not there alike, as [None]; a
    template literal tells them apart, and [name_is_null] says which of
    the two it is. *)
Record DriveBody : Type := mkDriveBody {
  eventData : option EventData;
  name_is_null : bool
}.

(** [`${eventData.name}`]. *)
Definition name_text (name_is_null : bool) (eventData : EventData) : string :=
  match e_name eventData with
  | Some s => s
  | None => if name_is_null then "null" else "undefined"
  end.

(** [`${eventData.name}_${Date.now()}.json`]. *)
Definition export_file_name (name_is_null : bool) (eventData : EventData)
  (now : Z) : string :=
  String.concat ""
    [name_text name_is_null eventData; "_"; decimal now; ".json"].

Definition drive_failed : Response :=
  mkResponse 500 (ErrorBody "Failed to save to Drive").

(** Step 2 of [POST /api/drive/save]: create the JSON file in the folder.
    With no [eventData] in the body, [eventData.name] throws. *)
Definition create_event_file (fl : Faults) (now : Z)
  (body : DriveBody) (folderId : nat) (st : State)
  : Response * State :=
  match eventData body with
  | None => (drive_failed, st)
  | Some ed =>
      let name := export_file_name (name_is_null body) ed now in
      let call := files_create_file name [folderId] (mkJsonText 2 ed) in
      if file_create_fails fl then (drive_failed, log_call call false st)
      else
        let fileId := fresh_id (drive st) in
        (mkResponse 200 (SuccessFile fileId),
         add_file (mkDriveFile fileId name json_mimeType
                     [folderId] (Some (mkJsonText 2 ed)) false)
                  (log_call call true st))
  end.

(** [POST /api/drive/save]. *)
Definition post_drive_save (fl : Faults) (now : Z)
  (body : DriveBody) (st : State) : Response * State :=
  match tokens st with
  | None => (mkResponse 401 (ErrorBody "Not connected to Google Drive"), st)
  | Some _ =>
      (* 1. find or create the folder *)
      if files_list_fails fl
      then (drive_failed, log_call (files_list folder_query) false st)
      else
        let st1 := log_call (files_list folder_query) true st in
        match list_folders (drive st1) with
        | f :: _ => create_event_file fl now body (file_id f) st1
        | [] =>
            if folder_create_fails fl
            then (drive_failed,
                  log_call (files_create_folder folder_name) false st1)
            else
              let folderId := fresh_id (drive st1) in
              create_event_file fl now body folderId
                (add_file (mkDriveFile folderId folder_name folder_mimeType
                             [] None false)
                   (log_call (files_create_folder folder_name) true st1))
        end
  end.

(** *** Vocabulary of the statements *)

(** The exported event files of a Drive. *)
Definition json_files (d : list DriveFile) : list DriveFile :=
  filter (fun f => String.eqb (file_mimeType f) json_mimeType) d.

End Server.

(* ================================================================== *)
(** ** The hosted stores (Supabase, Firestore) *)
(* ================================================================== *)

(** An error object; [is_Error] is [error instanceof Error]. *)
Record Error : Type := mkError {
  is_Error : bool;
  message : string
}.

(** The outcome of an awaited promise. *)
Inductive Reply (A : Type) : Type :=
| Resolved (a : A)
| Rejected (e : Error).
Arguments Resolved {A} a.
Arguments Rejected {A} e.

(** The query a Supabase query builder has accumulated. *)
Inductive FilterOp : Type :=
| eq_op (column value : string)
| ilike_op (column pattern : string).

Record Query : Type := mkQuery {
  q_from : string;
  q_select : string;
  q_order : string;
  q_ascending : bool;
  q_filters : list FilterOp
}.

(** [{ data, error }]. *)
Record SelectResult : Type := mkSelectResult {
  sr_data : option (list Event);
  sr_error : option Error
}.

(** A Firestore document snapshot: [doc.id] and [doc.data()]. *)
Record Doc : Type := mkDoc {
  doc_id : string;
  doc_data : EventData
}.

(** The two hosted services, each a state the client cannot see and the
    requests the program sends to it.  A Supabase request resolves to
    [{ error }] (or [{ data, error }]); any request may also reject. *)
Class Backends : Type := {
  Supabase : Type;
  Firestore : Type;
  supabase_insert : NewEvent -> Supabase -> Reply (option Error) * Supabase;
  supabase_delete : EventId -> Supabase -> Reply (option Error) * Supabase;
  supabase_select : Query -> Supabase -> Reply SelectResult * Supabase;
  addDoc : NewEvent -> Firestore -> Reply unit * Firestore;
  deleteDoc : string -> Firestore -> Reply unit * Firestore;
  getDocs : Firestore -> Reply (list Doc) * Firestore
}.

(* ================================================================== *)
(** ** The client (App.tsx) *)
(* ================================================================== *)

Module App.

Inductive Page : Type := iftar | about | products | services | contact_us.

(** The component state. *)
Record AppState : Type := mkAppState {
  currentPage : Page;
  events : list Event;
  loading : bool;
  showAddForm : bool;
  isGoogleConnected : bool;
  isSubmitting : bool;
  filters : Filters;
  formData : FormData
}.

(** Requests leaving the browser, in the order they are sent. *)
Inductive Call : Type :=
| call_supabase_insert (e : NewEvent)
| call_supabase_delete (i : EventId)
| call_supabase_select (q : Query)
| call_addDoc (e : NewEvent)
| call_deleteDoc (i : string)
| call_getDocs
| call_post_events (body : EventData)             (* POST /api/events *)
| call_post_events_delete (i : EventId)           (* POST /api/events/delete *)
| call_post_drive_save (eventData : EventData).   (* POST /api/drive/save *)

(** The [alert] boxes shown to the user. *)
Inductive Alert : Type :=
| alert_wrong_password          (* wrong password, deletion refused *)
| alert_delete_failed           (* there was a problem deleting *)
| alert_submit_ok               (* added successfully *)
| alert_submit_failed (msg : string).  (* problem adding the event: msg *)

Inductive Log : Type :=
| console_warn (msg : string)
| console_error (msg : string).

(** What surrounds one user action: both clocks, the faults below the
    server's handlers, and whether each [fetch] reaches the server (a
    [fetch] that does not rejects). *)
Record Env : Type := mkEnv {
  client_now : Z;
  server_now : Z;
  faults : Server.Faults;
  net_post_events : bool;
  net_post_events_delete : bool;
  net_post_drive_save : bool
}.

Definition network_error : Error := mkError true "Failed to fetch".

Definition empty_form : FormData :=
  mkFormData "" "public_iftar" "" "" "" "" "" "" "" "" "" "" None None "" "" "".

(** The shared secret of [deleteEvent]. *)
Definition delete_password : string := "0179215718".

Definition is_space (c : ascii) : bool :=
  let n := nat_of_ascii c in
  ((9 <=? n) && (n <=? 13) || (n =? 32))%nat.

Definition is_digit (c : ascii) : bool :=
  let n := nat_of_ascii c in ((48 <=? n) && (n <=? 57))%nat.

Fixpoint trimStart (s : string) : string :=
  match s with
  | String c r => if is_space c then trimStart r else s
  | EmptyString => EmptyString
  end.

Definition starts_with_digit (s : string) : bool :=
  match s with
  | String c _ => is_digit c
  | EmptyString => false
  end.

(** Does an unsigned decimal literal ([Infinity], digits, or a dot and
    digits) start here? *)
Definition unsigned_literal_prefix (s : string) : bool :=
  String.prefix "Infinity" s || starts_with_digit s ||
  match s with
  | String c r => Ascii.eqb c "." && starts_with_digit r
  | EmptyString => false
  end.

Definition literal_prefix (s : string) : bool :=
  match s with
  | String c r =>
      if Ascii.eqb c "+" || Ascii.eqb c "-" then unsigned_literal_prefix r
      else unsigned_literal_prefix s
  | EmptyString => false
  end.

(** [parseFloat]: [NaN] unless, after leading white space, a decimal
    literal starts the text. *)
Definition parseFloat `{Platform} (s : string) : number :=
  let t := trimStart s in
  if literal_prefix t then StrDecimalLiteral_value t else PrimFloat.nan.

Fixpoint skip_digits (s : string) : string :=
  match s with
  | String c r => if is_digit c then skip_digits r else s
  | EmptyString => EmptyString
  end.

Definition is_empty (s : string) : bool := negb (string_truthy s).

(** The optional exponent that may end a valid floating-point number. *)
Definition exponent_ok (s : string) : bool :=
  match s with
  | EmptyString => true
  | String c r =>
      (Ascii.eqb c "e" || Ascii.eqb c "E") &&
      let r' := match r with
                | String sg r'' =>
                    if Ascii.eqb sg "+" || Ascii.eqb sg "-" then r'' else r
                | EmptyString => r
                end in
      starts_with_digit r' && is_empty (skip_digits r')
  end.

Definition fraction_ok (s : string) : bool :=
  starts_with_digit s && exponent_ok (skip_digits s).

Definition mantissa_ok (s : string) : bool :=
  if starts_with_digit s
  then match skip_digits s with
       | String c r => if Ascii.eqb c "." then fraction_ok r
                       else exponent_ok (String c r)
       | EmptyString => true
       end
  else match s with
       | String c r => Ascii.eqb c "." && fraction_ok r
       | EmptyString => false
       end.

(** HTML's "valid floating-point number". *)
Definition valid_floating_point_number (s : string) : bool :=
  match s with
  | String c r => if Ascii.eqb c "-" then mantissa_ok r else mantissa_ok s
  | EmptyString => false
  end.

(** The [value] an [<input type="number">] reports for what was typed:
    text that is not a valid floating-point number reads as [""]. *)
Definition input_number_value (typed : string) : string :=
  if valid_floating_point_number typed then typed else "".

(** A number input "suffers from bad input" while its box holds a text
    the browser cannot convert to a number. *)
Definition bad_input (text : string) : bool :=
  string_truthy text && negb (valid_floating_point_number text).

Definition set_lat (x : option number) (f : FormData) : FormData :=
  mkFormData (name f) (type f) (district f) (upazila f) (village f)
    (address f) (date_range f) (start_time f) (iftar_time f) (contact f)
    (description f) (image_url f) x (lng f) (link_url f) (event_date f)
    (event_day f).

Definition set_lng (x : option number) (f : FormData) : FormData :=
  mkFormData (name f) (type f) (district f) (upazila f) (village f)
    (address f) (date_range f) (start_time f) (iftar_time f) (contact f)
    (description f) (image_url f) (lat f) x (link_url f) (event_date f)
    (event_day f).

(** The [onChange] handlers of the two coordinate inputs, applied to
    [e.target.value]. *)
Definition onChange_lat `{Platform} (value : string) (f : FormData) : FormData :=
  set_lat (Some (parseFloat value)) f.

Definition onChange_lng `{Platform} (value : string) (f : FormData) : FormData :=
  set_lng (Some (parseFloat value)) f.

(** The query [fetchEvents] builds. *)
Definition build_query (f : Filters) : Query :=
  mkQuery "events" "*" "created_at" false
    ((if string_truthy (f_district f)
      then [eq_op "district" (f_district f)] else []) ++
     (if string_truthy (f_type f)
      then [eq_op "type" (f_type f)] else []) ++
     (if string_truthy (f_upazila f)
      then [ilike_op "upazila" (String.concat "" ["%"; f_upazila f; "%"])]
      else []) ++
     (if string_truthy (f_village f)
      then [ilike_op "village" (String.concat "" ["%"; f_village f; "%"])]
      else [])).

(** [data.district !== filters.district]. *)
Definition differs (d : option string) (f : string) : bool :=
  match d with
  | Some s => negb (String.eqb s f)
  | None => true
  end.

(** [data.upazila?.toLowerCase().includes(filters.upazila.toLowerCase())];
    a missing field short-circuits to [undefined], which is falsy. *)
Definition contains_ci `{Platform} (d : option string) (f : string) : bool :=
  match d with
  | Some s => includes (toLowerCase s) (toLowerCase f)
  | None => false
  end.

(** The [matches] flag the fallback computes for one document. *)
Definition matches `{Platform} (f : Filters) (d : EventData) : bool :=
  let m := true in
  let m := if string_truthy (f_district f) && differs (e_district d) (f_district f)
           then false else m in
  let m := if string_truthy (f_type f) && differs (e_type d) (f_type f)
           then false else m in
  let m := if string_truthy (f_upazila f)
              && negb (contains_ci (e_upazila d) (f_upazila f))
           then false else m in
  let m := if string_truthy (f_village f)
              && negb (contains_ci (e_village d) (f_village f))
           then false else m in
  m.

(** [a.created_at ? new Date(a.created_at).getTime() : 0]. *)
Definition date_of `{Platform} (a : Event) : option Z :=
  match e_created_at (data a) with
  | Some s => if string_truthy s then Date_getTime s else Some 0
  | None => Some 0
  end.

(** The comparator [(a, b) => dateB - dateA]. *)
Definition by_date_desc `{Platform} (a b : Event) : option Z :=
  num_sub (date_of b) (date_of a).

(** [{ id: doc.id, ...data }]. *)
Definition event_of_doc (d : Doc) : Event :=
  mkEvent (IdStr (doc_id d)) (doc_data d).

(** The list the fallback hands to [setEvents]. *)
Definition fallback_events `{Platform} (f : Filters) (snapshot : list Doc)
  : list Event :=
  Array_sort by_date_desc
    (map event_of_doc (filter (fun d => matches f (doc_data d)) snapshot)).

(** [JSON.stringify({ id })] as the server reads it back. *)
Definition json_id (i : EventId) : Server.JsonId :=
  match i with
  | IdStr s => Server.JIdStr s
  | IdNum n => Server.JIdNum n
  end.

(** How the body of an [async] function ends: it completes or throws. *)
Inductive Result (A : Type) : Type :=
| Ok (a : A)
| Thrown (e : Error).
Arguments Ok {A} a.
Arguments Thrown {A} e.

Section Client.

Context {P : Platform} {B : Backends}.

(** Everything one user action can touch: the component state, the two
    hosted stores, the server process, and what was sent and shown. *)
Record World : Type := mkWorld {
  app : AppState;
  supabase : Supabase;
  firestore : Firestore;
  server : Server.State;
  calls : list Call;
  alerts : list Alert;
  console : list Log
}.

(** An [async] function body runs on the world. *)
Definition M (A : Type) : Type := World -> Result A * World.

Definition ret {A : Type} (a : A) : M A := fun w => (Ok a, w).

Definition bind {A C : Type} (m : M A) (k : A -> M C) : M C :=
  fun w =>
    match m w with
    | (Ok a, w') => k a w'
    | (Thrown e, w') => (Thrown e, w')
    end.

Definition throw {A : Type} (e : Error) : M A := fun w => (Thrown e, w).

(** [try { m } catch (e) { h e }]. *)
Definition try_catch {A : Type} (m : M A) (h : Error -> M A) : M A :=
  fun w =>
    match m w with
    | (Ok a, w') => (Ok a, w')
    | (Thrown e, w') => h e w'
    end.

(** [try { m } finally { f }]. *)
Definition finally {A : Type} (m : M A) (f : M unit) : M A :=
  fun w =>
    match m w with
    | (r, w') =>
        match f w' with
        | (Ok _, w'') => (r, w'')
        | (Thrown e, w'') => (Thrown e, w'')
        end
    end.

(** A call to an [async] function that is not awaited: what it throws is
    not the caller's.  (Its effects are taken in sequence.) *)
Definition not_awaited (m : M unit) : M unit :=
  fun w => (Ok tt, snd (m w)).

Notation "x <- m ;; k" := (bind m (fun x => k))
  (at level 61, m at next level, right associativity).
Notation "m ;; k" := (bind m (fun _ => k))
  (at level 61, right associativity).

Definition with_app (a : AppState) (w : World) : World :=
  mkWorld a (supabase w) (firestore w) (server w) (calls w) (alerts w)
    (console w).
Definition with_supabase (s : Supabase) (w : World) : World :=
  mkWorld (app w) s (firestore w) (server w) (calls w) (alerts w) (console w).
Definition with_firestore (s : Firestore) (w : World) : World :=
  mkWorld (app w) (supabase w) s (server w) (calls w) (alerts w) (console w).
Definition with_server (s : Server.State) (w : World) : World :=
  mkWorld (app w) (supabase w) (firestore w) s (calls w) (alerts w)
    (console w).
Definition sent (c : Call) (w : World) : World :=
  mkWorld (app w) (supabase w) (firestore w) (server w) (calls w ++ [c])
    (alerts w) (console w).

Definition alert (a : Alert) : M unit :=
  fun w => (Ok tt, mkWorld (app w) (supabase w) (firestore w) (server w)
                     (calls w) (alerts w ++ [a]) (console w)).
Definition log (l : Log) : M unit :=
  fun w => (Ok tt, mkWorld (app w) (supabase w) (firestore w) (server w)
                     (calls w) (alerts w) (console w ++ [l])).

Definition get_app : M AppState := fun w => (Ok (app w), w).
Definition set_state (f : AppState -> AppState) : M unit :=
  fun w => (Ok tt, with_app (f (app w)) w).

Definition setEvents (l : list Event) : M unit :=
  set_state (fun a => mkAppState (currentPage a) l (loading a) (showAddForm a)
     (isGoogleConnected a) (isSubmitting a) (filters a) (formData a)).
Definition setLoading (b : bool) : M unit :=
  set_state (fun a => mkAppState (currentPage a) (events a) b (showAddForm a)
     (isGoogleConnected a) (isSubmitting a) (filters a) (formData a)).
Definition setShowAddForm (b : bool) : M unit :=
  set_state (fun a => mkAppState (currentPage a) (events a) (loading a) b
     (isGoogleConnected a) (isSubmitting a) (filters a) (formData a)).
Definition setCurrentPage (p : Page) : M unit :=
  set_state (fun a => mkAppState p (events a) (loading a) (showAddForm a)
     (isGoogleConnected a) (isSubmitting a) (filters a) (formData a)).
Definition setIsSubmitting (b : bool) : M unit :=
  set_state (fun a => mkAppState (currentPage a) (events a) (loading a)
     (showAddForm a) (isGoogleConnected a) b (filters a) (formData a)).
Definition setFormData (f : FormData) : M unit :=
  set_state (fun a => mkAppState (currentPage a) (events a) (loading a)
     (showAddForm a) (isGoogleConnected a) (isSubmitting a) (filters a) f).

Definition await {A : Type} (r : Reply A) : Result A :=
  match r with
  | Resolved a => Ok a
  | Rejected e => Thrown e
  end.

(** The awaited requests to the hosted stores. *)
Definition from_events_insert (e : NewEvent) : M (option Error) :=
  fun w =>
    let w := sent (call_supabase_insert e) w in
    let (r, s) := supabase_insert e (supabase w) in
    (await r, with_supabase s w).

Definition from_events_delete (i : EventId) : M (option Error) :=
  fun w =>
    let w := sent (call_supabase_delete i) w in
    let (r, s) := supabase_delete i (supabase w) in
    (await r, with_supabase s w).

Definition from_events_select (q : Query) : M SelectResult :=
  fun w =>
    let w := sent (call_supabase_select q) w in
    let (r, s) := supabase_select q (supabase w) in
    (await r, with_supabase s w).

Definition events_addDoc (e : NewEvent) : M unit :=
  fun w =>
    let w := sent (call_addDoc e) w in
    let (r, s) := addDoc e (firestore w) in
    (await r, with_firestore s w).

Definition events_deleteDoc (i : string) : M unit :=
  fun w =>
    let w := sent (call_deleteDoc i) w in
    let (r, s) := deleteDoc i (firestore w) in
    (await r, with_firestore s w).

Definition events_getDocs : M (list Doc) :=
  fun w =>
    let w := sent call_getDocs w in
    let (r, s) := getDocs (firestore w) in
    (await r, with_firestore s w).

(** The awaited [fetch] calls to the server. *)
Definition fetch_post_events (env : Env) (body : EventData)
  : M Server.Response :=
  fun w =>
    let w := sent (call_post_events body) w in
    if net_post_events env
    then let (r, s) := Server.post_events (faults env) (server_now env) body
                         (server w) in
         (Ok r, with_server s w)
    else (Thrown network_error, w).

Definition fetch_post_events_delete (env : Env) (i : EventId)
  : M Server.Response :=
  fun w =>
    let w := sent (call_post_events_delete i) w in
    if net_post_events_delete env
    then let (r, s) := Server.post_events_delete (faults env) (json_id i)
                         (server w) in
         (Ok r, with_server s w)
    else (Thrown network_error, w).

(** [JSON.stringify({ eventData: formData })]: the name of the form is a
    text. *)
Definition drive_body (eventData : EventData) : Server.DriveBody :=
  Server.mkDriveBody (Some eventData) false.

Definition fetch_post_drive_save (env : Env) (eventData : EventData)
  : M Server.Response :=
  fun w =>
    let w := sent (call_post_drive_save eventData) w in
    if net_post_drive_save env
    then let (r, s) := Server.post_drive_save (faults env) (server_now env)
                         (drive_body eventData) (server w) in
         (Ok r, with_server s w)
    else (Thrown network_error, w).

(** [fetchEvents]. *)
Definition fetchEvents : M unit :=
  setLoading true ;;
  finally
    (try_catch
       (a <- get_app ;;
        r <- from_events_select (build_query (filters a)) ;;
        match sr_error r with
        | Some error => throw error
        | None =>
            match sr_data r with
            | Some d => setEvents d
            | None => ret tt
            end
        end)
       (fun _ =>
          log (console_error "Failed to fetch events from Supabase") ;;
          try_catch
            (a <- get_app ;;
             snapshot <- events_getDocs ;;
             setEvents (fallback_events (filters a) snapshot))
            (fun _ => log (console_error "Firebase fallback failed"))))
    (setLoading false).

(** [handleSubmit]. *)
Definition handleSubmit (env : Env) : M unit :=
  a <- get_app ;;
  if isSubmitting a then ret tt
  else
    setIsSubmitting true ;;
    let newEvent := mkNewEvent (formData a) (toISOString (client_now env)) in
    finally
      (try_catch
         (supabaseError <- from_events_insert newEvent ;;
          match supabaseError with
          | Some e => throw e
          | None => ret tt
          end ;;
          try_catch (events_addDoc newEvent)
            (fun _ => log (console_warn "Firebase backup failed")) ;;
          try_catch
            (fetch_post_events env (JSON_of_newEvent newEvent) ;; ret tt)
            (fun _ => log (console_warn "SQLite save failed")) ;;
          (if isGoogleConnected a
           then try_catch
                  (fetch_post_drive_save env (JSON_of_formData (formData a)) ;;
                   ret tt)
                  (fun _ => log (console_error "Failed to save to Google Drive"))
           else ret tt) ;;
          alert alert_submit_ok ;;
          setShowAddForm false ;;
          setCurrentPage iftar ;;
          not_awaited fetchEvents ;;
          setFormData empty_form)
         (fun error =>
            log (console_error "Failed to add event:") ;;
            alert (alert_submit_failed
                     (if is_Error error then message error
                      else "Unknown error"))))
      (setIsSubmitting false).

(** [deleteEvent]; [password] is what [window.prompt] returned ([None]
    when dismissed) and [confirmed] what [window.confirm] returned. *)
Definition deleteEvent (password : option string) (confirmed : bool)
  (env : Env) (i : EventId) : M unit :=
  if negb (match password with
           | Some p => String.eqb p delete_password
           | None => false
           end)
  then alert alert_wrong_password
  else if negb confirmed then ret tt
  else
    try_catch
      (supabaseError <- from_events_delete i ;;
       match supabaseError with
       | Some e => throw e
       | None => ret tt
       end ;;
       match i with
       | IdStr s =>
           try_catch (events_deleteDoc s)
             (fun _ => log (console_warn "Firebase delete failed"))
       | IdNum _ => ret tt
       end ;;
       fetch_post_events_delete env i ;;
       not_awaited fetchEvents)
      (fun _ =>
         log (console_error "Failed to delete event") ;;
         alert alert_delete_failed).

(** An edit of the latitude input: [value] is the input's value before
    it and [typed] the text in the box after it.  React calls [onChange]
    only when the input's value is no longer the one it last saw; the
    handler then sees the new value. *)
Definition type_lat (value typed : string) : M unit :=
  if String.eqb (input_number_value typed) value then ret tt
  else
    a <- get_app ;;
    setFormData (onChange_lat (input_number_value typed) (formData a)).

Definition type_lng (value typed : string) : M unit :=
  if String.eqb (input_number_value typed) value then ret tt
  else
    a <- get_app ;;
    setFormData (onChange_lng (input_number_value typed) (formData a)).

(** Pressing the submit button.  The form is not [noValidate]: the
    browser first validates the controls and fires [submit], which runs
    [handleSubmit], only when each of them is valid; otherwise it points
    at the first invalid control with a message of its own.  The two
    coordinate inputs have [type="number"] and [step="any"] and no other
    constraint: each is invalid exactly while it suffers from bad input.
    [others_valid] is the validity of the other controls (the required
    fields and the URL). *)
Definition press_submit (others_valid : bool) (lat_text lng_text : string)
  (env : Env) : M unit :=
  if others_valid && negb (bad_input lat_text) && negb (bad_input lng_text)
  then handleSubmit env
  else ret tt.

End Client.

(** *** Vocabulary of the statements *)

Section Vocabulary.

Context {P : Platform} {B : Backends}.

(** The error a Supabase write ended with, if any: the [error] of its
    result, or what the request rejected with. *)
Definition error_of (r : Reply (option Error)) : option Error :=
  match r with
  | Resolved None => None
  | Resolved (Some e) => Some e
  | Rejected e => Some e
  end.

(** The primary query errored. *)
Definition select_failed (r : Reply SelectResult) : bool :=
  match r with
  | Rejected _ => true
  | Resolved sr => match sr_error sr with Some _ => true | None => false end
  end.

(** A request of the read path. *)
Definition is_read (q : Query) (c : Call) : Prop :=
  c = call_supabase_select q \/ c = call_getDocs.

(** What [fetchEvents] leaves alone. *)
Definition same_but_list (w w' : World) : Prop :=
  alerts w' = alerts w /\ server w' = server w /\
  currentPage (app w') = currentPage (app w) /\
  showAddForm (app w') = showAddForm (app w) /\
  isGoogleConnected (app w') = isGoogleConnected (app w) /\
  isSubmitting (app w') = isSubmitting (app w) /\
  filters (app w') = filters (app w) /\
  formData (app w') = formData (app w).

(** The field holds a text that contains [x], letter case aside. *)
Definition contains_ignoring_case (field : option string) (x : string) : Prop :=
  exists u pre post,
    field = Some u /\
    toLowerCase u = String.append pre (String.append (toLowerCase x) post).

(** [a] may be listed before [b]: both have a time and [b]'s is not the
    later one. *)
Definition date_ge (a b : Event) : Prop :=
  match date_of a, date_of b with
  | Some x, Some y => y <= x
  | _, _ => False
  end.

(** The creation time of an event, [None] when it has none. *)
Definition created_time (e : Event) : option Z :=
  match e_created_at (data e) with
  | Some s => Date_getTime s
  | None => None
  end.

(** [a] may be listed before [b] when a missing time is the earliest
    time of all. *)
Definition missing_is_earliest (a b : Event) : Prop :=
  match created_time a, created_time b with
  | _, None => True
  | None, Some _ => False
  | Some x, Some y => y <= x
  end.

(** The [created_at] a write request carries ([None] inside when its
    payload has none); [None] for a request that writes no event. *)
Definition created_at_sent (c : Call) : option (option string) :=
  match c with
  | call_supabase_insert e => Some (Some (created_at e))
  | call_addDoc e => Some (Some (created_at e))
  | call_post_events body => Some (e_created_at body)
  | call_post_drive_save eventData => Some (e_created_at eventData)
  | _ => None
  end.

(** All the event copies a list of requests carries bear one and the
    same creation timestamp. *)
Definition copies_share_created_at (requests : list Call) : Prop :=
  exists ts, forall c, In c requests ->
    created_at_sent c = None \/ created_at_sent c = Some (Some ts).

(** Pressing submit with these texts in the coordinate boxes sends the
    event to the primary store, its latitude absent. *)
Definition sent_without_lat (lat_text lng_text : string) (env : Env)
  (w : World) : Prop :=
  exists e rest,
    calls (snd (press_submit true lat_text lng_text env w)) =
      calls w ++ call_supabase_insert e :: rest /\
    json_coord (lat (form e)) = None.

(** A text as a nullable column keeps it: NULL when it is empty. *)
Definition stored_text (s : string) : option string :=
  if string_truthy s then Some s else None.

(** The row of the local cache for a form submitted at [created]. *)
Definition row_of_form (f : FormData) (created : string) : EventData :=
  {| e_name := stored_text (name f);
     e_type := stored_text (type f);
     e_district := stored_text (district f);
     e_upazila := stored_text (upazila f);
     e_village := stored_text (village f);
     e_address := stored_text (address f);
     e_date_range := stored_text (date_range f);
     e_start_time := stored_text (start_time f);
     e_iftar_time := stored_text (iftar_time f);
     e_contact := stored_text (contact f);
     e_description := stored_text (description f);
     e_image_url := stored_text (image_url f);
     e_lat := json_coord (lat f);
     e_lng := json_coord (lng f);
     e_link_url := stored_text (link_url f);
     e_event_date := stored_text (event_date f);
     e_event_day := stored_text (event_day f);
     e_created_at := Some created |}.

(** An event payload with its creation timestamp left out. *)
Definition without_created_at (d : EventData) : EventData :=
  mkEventData (e_name d) (e_type d) (e_district d) (e_upazila d) (e_village d)
    (e_address d) (e_date_range d) (e_start_time d) (e_iftar_time d)
    (e_contact d) (e_description d) (e_image_url d) (e_lat d) (e_lng d)
    (e_link_url d) (e_event_date d) (e_event_day d) None.

End Vocabulary.

End App.

(* ================================================================== *)
(** ** A reference instance, to run the model on concrete data *)
(* ================================================================== *)

Module Demo.

Import App.

(** Lower-casing of the ASCII letters (text in a caseless script, such as
    the Bengali district names, is left as it is). *)
Definition ascii_lower (c : ascii) : ascii :=
  let n := nat_of_ascii c in
  if ((65 <=? n) && (n <=? 90))%nat then ascii_of_nat (n + 32) else c.

Fixpoint lower (s : string) : string :=
  match s with
  | String c r => String (ascii_lower c) (lower r)
  | EmptyString => EmptyString
  end.

Fixpoint digits_value (acc : Z) (s : string) : option Z :=
  match s with
  | EmptyString => Some acc
  | String c r =>
      if is_digit c
      then digits_value (10 * acc + Z.of_nat (nat_of_ascii c - 48)) r
      else None
  end.

(** A non-empty run of decimal digits. *)
Definition number_of (s : string) : option Z :=
  if string_truthy s then digits_value 0 s else None.

Definition char_at (n : nat) (c : ascii) (s : string) : bool :=
  match String.get n s with
  | Some d => Ascii.eqb c d
  | None => false
  end.

(** [new Date(s).getTime()] on the format [toISOString] writes,
    [YYYY-MM-DDTHH:mm:ss.sssZ]; any other text is an invalid date here. *)
Definition iso_getTime (s : string) : option Z :=
  if (String.length s =? 24)%nat && char_at 4 "-" s && char_at 7 "-" s
     && char_at 10 "T" s && char_at 13 ":" s && char_at 16 ":" s
     && char_at 19 "." s && char_at 23 "Z" s
  then
    match number_of (substring 0 4 s), number_of (substring 5 2 s),
          number_of (substring 8 2 s), number_of (substring 11 2 s),
          number_of (substring 14 2 s), number_of (substring 17 2 s),
          number_of (substring 20 3 s) with
    | Some y, Some mo, Some d, Some h, Some mi, Some sec, Some ms =>
        let day := days_from_civil y mo d in
        let '(y', mo', d') := civil_from_days day in
        if (y' =? y) && (mo' =? mo) && (d' =? d) && (h <=? 23) && (mi <=? 59)
           && (sec <=? 59)
        then Some ((((day * 24 + h) * 60 + mi) * 60 + sec) * 1000 + ms)
        else None
    | _, _, _, _, _, _, _ => None
    end
  else None.

(** The digits of a mantissa and the power of ten of its fraction. *)
Fixpoint mantissa (acc scale : Z) (dot : bool) (s : string) : Z * Z :=
  match s with
  | EmptyString => (acc, scale)
  | String c r =>
      if is_digit c
      then mantissa (10 * acc + Z.of_nat (nat_of_ascii c - 48))
             (if dot then 10 * scale else scale) dot r
      else if Ascii.eqb c "." && negb dot then mantissa acc scale true r
      else (acc, scale)
  end.

(** The value of a literal [-]digits[.digits] (exponents are not read). *)
Definition literal_value (s : string) : number :=
  let '(neg, r) := match s with
                   | String c r =>
                       if Ascii.eqb c "-" then (true, r)
                       else if Ascii.eqb c "+" then (false, r) else (false, s)
                   | EmptyString => (false, s)
                   end in
  let '(n, k) := mantissa 0 1 false r in
  let v := PrimFloat.div (PrimFloat.of_uint63 (Uint63.of_Z n))
                         (PrimFloat.of_uint63 (Uint63.of_Z k)) in
  if neg then PrimFloat.opp v else v.

Definition integer_text (s : string) : option Z :=
  match s with
  | String c r => if Ascii.eqb c "-" then option_map Z.opp (number_of r)
                  else number_of s
  | EmptyString => None
  end.

#[export] Instance platform : Platform := {|
  toLowerCase := lower;
  Date_getTime := iso_getTime;
  StrDecimalLiteral_value := literal_value;
  sqlite_text_as_integer := integer_text
|}.

(** An in-memory stand-in for the Supabase table: rows get numeric ids;
    when [sb_down] every request comes back with an error. *)
Record DemoSupabase : Type := mkDemoSupabase {
  sb_rows : list Event;
  sb_next : Z;
  sb_down : bool
}.

(** An in-memory stand-in for the Firestore collection; when [fs_down]
    every request rejects. *)
Record DemoFirestore : Type := mkDemoFirestore {
  fs_docs : list Doc;
  fs_next : Z;
  fs_down : bool
}.

Definition unavailable : Error := mkError false "service unavailable".

Definition id_eqb (a b : EventId) : bool :=
  match a, b with
  | IdStr x, IdStr y => String.eqb x y
  | IdNum x, IdNum y => x =? y
  | _, _ => false
  end.

Definition column (c : string) (d : EventData) : option string :=
  if String.eqb c "district" then e_district d
  else if String.eqb c "type" then e_type d
  else if String.eqb c "upazila" then e_upazila d
  else if String.eqb c "village" then e_village d
  else None.

(** The pattern [%x%] without its two wildcards. *)
Definition pattern_body (p : string) : string :=
  substring 1 (String.length p - 2) p.

Definition satisfies (d : EventData) (o : FilterOp) : bool :=
  match o with
  | eq_op c v =>
      match column c d with Some s => String.eqb s v | None => false end
  | ilike_op c p =>
      match column c d with
      | Some s => includes (lower s) (lower (pattern_body p))
      | None => false
      end
  end.

(** Descending order of the stand-in: as in PostgreSQL, rows without a
    value come first. *)
Definition desc_nulls_first (a b : Event) : bool :=
  match e_created_at (data a), e_created_at (data b) with
  | None, _ => true
  | Some _, None => false
  | Some x, Some y => String.leb y x
  end.

Definition demo_select (q : Query) (s : DemoSupabase) : list Event :=
  stable_sort desc_nulls_first
    (filter (fun e => forallb (satisfies (data e)) (q_filters q)) (sb_rows s)).

(** The document Firestore keeps for [newEvent]: the object as it is. *)
Definition doc_of_newEvent (e : NewEvent) : EventData :=
  let j := JSON_of_newEvent e in
  mkEventData (e_name j) (e_type j) (e_district j) (e_upazila j) (e_village j)
    (e_address j) (e_date_range j) (e_start_time j) (e_iftar_time j)
    (e_contact j) (e_description j) (e_image_url j) (lat (form e))
    (lng (form e)) (e_link_url j) (e_event_date j) (e_event_day j)
    (e_created_at j).

#[export] Instance backends : Backends := {|
  Supabase := DemoSupabase;
  Firestore := DemoFirestore;
  supabase_insert e s :=
    if sb_down s then (Resolved (Some unavailable), s)
    else (Resolved None,
          mkDemoSupabase
            (sb_rows s ++ [mkEvent (IdNum (sb_next s)) (JSON_of_newEvent e)])
            (sb_next s + 1) false);
  supabase_delete i s :=
    if sb_down s then (Resolved (Some unavailable), s)
    else (Resolved None,
          mkDemoSupabase (filter (fun e => negb (id_eqb (id e) i)) (sb_rows s))
            (sb_next s) false);
  supabase_select q s :=
    if sb_down s then (Resolved (mkSelectResult None (Some unavailable)), s)
    else (Resolved (mkSelectResult (Some (demo_select q s)) None), s);
  addDoc e s :=
    if fs_down s then (Rejected unavailable, s)
    else (Resolved tt,
          mkDemoFirestore
            (fs_docs s ++ [mkDoc (String.append "doc" (decimal (fs_next s)))
                             (doc_of_newEvent e)])
            (fs_next s + 1) false);
  deleteDoc i s :=
    if fs_down s then (Rejected unavailable, s)
    else (Resolved tt,
          mkDemoFirestore
            (filter (fun d => negb (String.eqb (doc_id d) i)) (fs_docs s))
            (fs_next s) false);
  getDocs s :=
    if fs_down s then (Rejected unavailable, s) else (Resolved (fs_docs s), s)
|}.

Definition no_faults : Server.Faults := Server.mkFaults false false false false.

(** A quiet environment: everything is reachable and nothing fails. *)
Definition calm (client_now server_now : Z) : Env :=
  mkEnv client_now server_now no_faults true true true.

Definition fresh_server : Server.State :=
  Server.mkState (Some (Server.mkTable [] 0)) None [] [].

Definition connected_server : Server.State :=
  Server.mkState (Some (Server.mkTable [] 0)) (Some "ya29.token") [] [].

Definition no_filters : Filters := mkFilters "" "" "" "".

Definition iftar_form : FormData :=
  mkFormData "Community Iftar" "public_iftar" "Dhaka" "Savar" "Ashulia"
    "Main road" "1-30 Ramadan" "17:30" "18:05" "01700000000" "" "" None None
    "" "10 Ramadan" "Friday".

Definition start (connected : bool) (f : FormData) (srv : Server.State)
  (sb : DemoSupabase) (fs : DemoFirestore) : World :=
  mkWorld (mkAppState iftar [] false true connected false no_filters f)
    sb fs srv [] [] [].

(** The same, with the search filters set. *)
Definition browsing (f : Filters) (sb : DemoSupabase) (fs : DemoFirestore)
  : World :=
  mkWorld (mkAppState iftar [] false false false false f empty_form)
    sb fs fresh_server [] [] [].

Definition dated (name district upazila : string) (created : option string)
  : EventData :=
  mkEventData (Some name) (Some "public_iftar") (Some district) (Some upazila)
    None None None None None None None None None None None None None created.

Definition old_doc : Doc :=
  mkDoc "a1" (dated "Old" "Dhaka" "Savar" (Some "1969-12-31T23:59:59.999Z")).
Definition undated_doc : Doc :=
  mkDoc "b2" (dated "Undated" "Dhaka" "Dhamrai" None).
Definition march_doc : Doc :=
  mkDoc "c3" (dated "March" "Dhaka" "SAVAR" (Some "2024-03-11T12:00:00.123Z")).
Definition april_doc : Doc :=
  mkDoc "d4" (dated "April" "Sylhet" "Savar" (Some "2024-04-01T18:30:00.000Z")).

Definition later_undated_doc : Doc :=
  mkDoc "e5" (dated "Undated too" "Dhaka" "Savar" None).

Definition stocked_firestore : DemoFirestore :=
  mkDemoFirestore [old_doc; undated_doc; march_doc; april_doc] 5 false.

Definition cached_row : Server.Row :=
  Server.mkRow 1 (dated "March" "Dhaka" "Savar" (Some "2024-03-11T12:00:00.123Z")).

Definition caching_server : Server.State :=
  Server.mkState (Some (Server.mkTable [cached_row] 1)) None [] [].

Definition up_supabase : DemoSupabase := mkDemoSupabase [] 1 false.
Definition down_supabase : DemoSupabase := mkDemoSupabase [] 1 true.
Definition up_firestore : DemoFirestore := mkDemoFirestore [] 1 false.
Definition down_firestore : DemoFirestore := mkDemoFirestore [] 1 true.

End Demo.

(* ================================================================== *)
(** ** The Drive connection flag of the client (App.tsx) *)
(* ================================================================== *)

Module Connection.

Import App.

Section Client.

Context {P : Platform} {B : Backends}.

Definition setIsGoogleConnected (b : bool) : M unit :=
  set_state (fun a => mkAppState (currentPage a) (events a) (loading a)
     (showAddForm a) b (isSubmitting a) (filters a) (formData a)).

(** [fetch('/api/auth/google/status')]; the request rejects when the
    server is not [reachable]. *)
Definition fetch_auth_status (reachable : bool) : M Server.Response :=
  fun w =>
    if reachable then (Ok (Server.auth_status (server w)), w)
    else (Thrown network_error, w).

(** [checkGoogleStatus], run when the component mounts.  ([data.connected]
    of a body without that key is [undefined], which is falsy.) *)
Definition checkGoogleStatus (reachable : bool) : M unit :=
  try_catch
    (bind (fetch_auth_status reachable) (fun res =>
       match Server.body res with
       | Server.ConnectedBody connected => setIsGoogleConnected connected
       | _ => setIsGoogleConnected false
       end))
    (fun _ => log (console_error "Failed to check Google status")).

(** [handleMessage]: [type] is [event.data?.type] when it is a string. *)
Definition handleMessage (type : option string) : M unit :=
  match type with
  | Some t => if String.eqb t "GOOGLE_AUTH_SUCCESS"
              then setIsGoogleConnected true else ret tt
  | None => ret tt
  end.

End Client.

End Connection.

(* ================================================================== *)
(** ** The routes of the server, one request after another *)
(* ================================================================== *)

Module Routes.

Import Server.

(** A request to one of the routes that read or write the process
    state, with what it carries.  For the callback that is the outcome of
    [oauth2Client.getToken(code)]. *)
Inductive Request : Type :=
| GET_auth_google_callback (exchanged : option Tokens)
| GET_auth_google_status
| GET_events
| POST_events (event : EventData)
| POST_events_delete (i : JsonId)
| POST_drive_save (body : DriveBody).

(** A request as it arrives: the faults below its handler and the clock
    while it is served. *)
Record Arrival : Type := mkArrival {
  a_faults : Faults;
  a_now : Z;
  a_request : Request
}.

(** The route table of [startServer]. *)
Definition serve `{Platform} (a : Arrival) (st : State) : Response * State :=
  match a_request a with
  | GET_auth_google_callback exchanged => auth_callback exchanged st
  | GET_auth_google_status => (auth_status st, st)
  | GET_events => (get_events (a_faults a) st, st)
  | POST_events event => post_events (a_faults a) (a_now a) event st
  | POST_events_delete i => post_events_delete (a_faults a) i st
  | POST_drive_save body =>
      post_drive_save (a_faults a) (a_now a) body st
  end.

(** The requests are served one at a time, in the order they arrive. *)
Fixpoint run `{Platform} (arrivals : list Arrival) (st : State)
  : list Response * State :=
  match arrivals with
  | [] => ([], st)
  | a :: rest =>
      let (r, st1) := serve a st in
      let (rs, st2) := run rest st1 in
      (r :: rs, st2)
  end.

(** A callback whose code is exchanged for tokens. *)
Definition grants (a : Arrival) : bool :=
  match a_request a with
  | GET_auth_google_callback (Some _) => true
  | _ => false
  end.

End Routes.

(* ================================================================== *)
(** ** Vocabulary of further statements *)
(* ================================================================== *)

Module Cache.

Import Server.

(** The identifiers of the table are pairwise different and none exceeds
    the AUTOINCREMENT counter. *)
Definition ids_ok (t : Table) : Prop :=
  NoDup (map row_id (rows t)) /\
  forall r, In r (rows t) -> row_id r <= seq t.

(** A text column is NULL or a text that is not empty. *)
Definition no_empty (v : option string) : Prop := v <> Some EmptyString.

(** A row as the insert route writes it: no text column holds the empty
    text, and [created_at] holds a text. *)
Definition row_clean (d : EventData) : Prop :=
  no_empty (e_name d) /\ no_empty (e_type d) /\ no_empty (e_district d) /\
  no_empty (e_upazila d) /\ no_empty (e_village d) /\ no_empty (e_address d) /\
  no_empty (e_date_range d) /\ no_empty (e_start_time d) /\
  no_empty (e_iftar_time d) /\ no_empty (e_contact d) /\
  no_empty (e_description d) /\ no_empty (e_image_url d) /\
  no_empty (e_link_url d) /\ no_empty (e_event_date d) /\
  no_empty (e_event_day d) /\
  exists s, e_created_at d = Some s /\ s <> EmptyString.

Definition table_clean (t : Table) : Prop :=
  forall r, In r (rows t) -> row_clean (row_data r).

(** The table behind the database handle, empty when there is none. *)
Definition rows_of (st : State) : list Row :=
  match db st with
  | Some t => rows t
  | None => []
  end.

End Cache.

(** [f'] asks for no more than [f]: each of its filters is unset or is
    the filter of [f]. *)
Definition filters_relaxed (f' f : Filters) : Prop :=
  (f_district f' = EmptyString \/ f_district f' = f_district f) /\
  (f_type f' = EmptyString \/ f_type f' = f_type f) /\
  (f_upazila f' = EmptyString \/ f_upazila f' = f_upazila f) /\
  (f_village f' = EmptyString \/ f_village f' = f_village f).


(** A few requests in a row, for the reference instance. *)
Definition busy_day : list Routes.Arrival :=
  [Routes.mkArrival Demo.no_faults 1710158400500
     (Routes.POST_events (JSON_of_newEvent
                     (mkNewEvent Demo.iftar_form "2024-03-11T12:00:00.123Z")));
   Routes.mkArrival Demo.no_faults 1710158400600 (Routes.POST_events_delete (Server.JIdNum 1));
   Routes.mkArrival Demo.no_faults 1710158400700 Routes.GET_events;
   Routes.mkArrival Demo.no_faults 1710158400800
     (Routes.POST_drive_save (App.drive_body (JSON_of_formData Demo.iftar_form)))].


Lemma prefix_spec (p s : string) :
  String.prefix p s = true <-> exists q, s = String.append p q.
Proof.
  revert s; induction p as [|c p IH]; intros s.
  - split; [intros _; exists s; reflexivity | intros _; destruct s; reflexivity].
  - destruct s as [|d s]; simpl;
      [split; [discriminate | intros [q Hq]; discriminate]|].
    destruct (ascii_dec c d) as [->|Hne].
    + rewrite IH. split.
      * intros [q ->]. exists q. reflexivity.
      * intros [q Hq]. simpl in Hq. injection Hq as Hq. exists q. exact Hq.
    + split; [discriminate | intros [q Hq]; injection Hq as -> _; congruence].
Qed.

Lemma includes_spec (s sub : string) :
  includes s sub = true <->
  exists pre post, s = String.append pre (String.append sub post).
Proof.
  induction s as [|c s IH]; cbn [includes].
  - rewrite orb_false_r, prefix_spec. split.
    + intros [q ->]. exists EmptyString, q. reflexivity.
    + intros [pre [post H]]. destruct pre; simpl in H; [exists post; exact H|discriminate].
  - rewrite orb_true_iff, prefix_spec, IH. split.
    + intros [[q ->]|[pre [post ->]]].
      * exists EmptyString, q. reflexivity.
      * exists (String c pre), post. reflexivity.
    + intros [pre [post H]]. destruct pre as [|d pre]; simpl in H.
      * left. exists post. exact H.
      * right. injection H as -> ->. exists pre, post. reflexivity.
Qed.

Section Sorting.
Context {A : Type} (before : A -> A -> bool) (good : A -> Prop).

Lemma insert_by_perm x l : Permutation (x :: l) (insert_by before x l).
Proof.
  induction l as [|y l IH]; simpl; [reflexivity|].
  destruct (before x y); [reflexivity|].
  rewrite perm_swap. constructor. exact IH.
Qed.

Lemma stable_sort_perm l : Permutation l (stable_sort before l).
Proof.
  induction l as [|x l IH]; simpl; [constructor|].
  rewrite <- insert_by_perm. constructor. exact IH.
Qed.

Lemma stable_sort_In x l : In x (stable_sort before l) <-> In x l.
Proof.
  split; apply Permutation_in; [symmetry|]; apply stable_sort_perm.
Qed.

(** The comparator is a total preorder on the [good] elements. *)
Hypothesis before_total :
  forall a b, good a -> good b -> before a b = false -> before b a = true.
Hypothesis before_trans :
  forall a b c, good a -> good b -> good c ->
    before a b = true -> before b c = true -> before a c = true.

Lemma insert_by_sorted x l :
  good x -> Forall good l ->
  StronglySorted (fun a b => before a b = true) l ->
  StronglySorted (fun a b => before a b = true) (insert_by before x l).
Proof.
  intros Hx Hl Hs. induction Hs as [|y l Hs IH Hall]; simpl.
  - repeat constructor.
  - inversion Hl as [|? ? Hy Hl']; subst.
    destruct (before x y) eqn:E.
    + constructor; [constructor; assumption|].
      constructor; [exact E|].
      rewrite Forall_forall in *. intros z Hz. eauto.
    + constructor; [apply IH; exact Hl'|].
      rewrite Forall_forall in *. intros z Hz.
      apply (Permutation_in _ (Permutation_sym (insert_by_perm x l))) in Hz.
      destruct Hz as [<-|Hz]; [apply before_total; assumption | apply Hall; exact Hz].
Qed.

Lemma stable_sort_sorted l :
  Forall good l ->
  StronglySorted (fun a b => before a b = true) (stable_sort before l).
Proof.
  induction 1 as [|x l Hx Hl IH]; simpl; [constructor|].
  apply insert_by_sorted; [exact Hx | | exact IH].
  rewrite Forall_forall in *. intros z Hz.
  apply Hl, (proj1 (stable_sort_In z l)), Hz.
Qed.
End Sorting.

Lemma leb_iff (a b : string) :
  String.leb a b = true <-> a = b \/ OrderedTypeEx.String_as_OT.lt a b.
Proof.
  unfold String.leb.
  pose proof (OrderedTypeEx.String_as_OT.cmp_eq a b) as He.
  pose proof (OrderedTypeEx.String_as_OT.cmp_lt a b) as Hl.
  pose proof (OrderedTypeEx.String_as_OT.cmp_antisym a b) as Ha.
  unfold OrderedTypeEx.String_as_OT.cmp in *.
  destruct (String.compare a b) eqn:E.
  - split; [intros _; left; apply He; reflexivity | reflexivity].
  - split; [intros _; right; apply Hl; reflexivity | reflexivity].
  - split; [discriminate|]. intros [H|H].
    + apply He in H. discriminate.
    + apply Hl in H. discriminate.
Qed.

Lemma leb_trans (a b c : string) :
  String.leb a b = true -> String.leb b c = true -> String.leb a c = true.
Proof.
  rewrite !leb_iff. intros [->|H1] [->|H2]; auto.
  right. eapply OrderedTypeEx.String_as_OT.lt_trans; eassumption.
Qed.

Lemma sql_le_total (a b : option string) :
  Server.sql_le a b = false -> Server.sql_le b a = true.
Proof.
  destruct a as [x|], b as [y|]; simpl; try reflexivity; try discriminate.
  destruct (String.leb_total x y) as [H|H]; congruence.
Qed.

Lemma sql_le_trans (a b c : option string) :
  Server.sql_le a b = true -> Server.sql_le b c = true -> Server.sql_le a c = true.
Proof.
  destruct a as [x|], b as [y|], c as [z|]; simpl; try reflexivity;
    try discriminate. apply leb_trans.
Qed.
Import App.

Ltac unfold_M :=
  unfold bind, ret, throw, try_catch, finally, not_awaited, alert, log,
    get_app, set_state, setEvents, setLoading, setShowAddForm, setCurrentPage,
    setIsSubmitting, setFormData, from_events_insert, from_events_delete,
    from_events_select, events_addDoc, events_deleteDoc, events_getDocs,
    fetch_post_events, fetch_post_events_delete, fetch_post_drive_save,
    await, sent, with_app, with_supabase, with_firestore, with_server in *.

Ltac step :=
  cbn -[fetchEvents Server.post_events Server.post_drive_save
        Server.post_events_delete toISOString JSON_of_newEvent
        JSON_of_formData fallback_events build_query] in *.

Ltac plain x :=
  lazymatch x with
  | context [match _ with _ => _ end] => fail
  | _ => idtac
  end.

Ltac break_match :=
  match goal with
  | |- context [match ?x with _ => _ end] => plain x; destruct x eqn:?
  end.

Section ClientFacts.
Context {P : Platform} {B : Backends}.

Lemma fetchEvents_frame (w : World) :
  fst (fetchEvents w) = Ok tt /\ same_but_list w (snd (fetchEvents w)).
Proof.
  unfold fetchEvents, same_but_list. unfold_M. cbn.
  repeat (break_match; cbn); repeat split; reflexivity.
Qed.

Lemma fetchEvents_calls (w : World) :
  exists reads, calls (snd (fetchEvents w)) = calls w ++ reads /\
    forall c, In c reads ->
      c = call_supabase_select (build_query (filters (app w))) \/ c = call_getDocs.
Proof.
  unfold fetchEvents. unfold_M. cbn.
  repeat (break_match; cbn);
    first [ exists [call_supabase_select (build_query (filters (app w)))];
            split; [reflexivity|]; intros c [<-|[]]; auto
          | exists [call_supabase_select (build_query (filters (app w))); call_getDocs];
            split; [rewrite <- app_assoc; reflexivity|]; intros c [<-|[<-|[]]]; auto ].
Qed.

Ltac forget_fetchEvents :=
  match goal with
  | |- context [fetchEvents ?w0] =>
      let F := fresh "F" in let C := fresh "C" in let R := fresh "R" in
      destruct (fetchEvents_frame w0) as [_ F];
      destruct (fetchEvents_calls w0) as [? [C R]];
      unfold same_but_list in F; step;
      destruct F as (? & ? & ? & ? & ? & ? & ? & ?);
      generalize dependent (fetchEvents w0); intros
  end.

Lemma handleSubmit_run (env : Env) (w : World) :
  isSubmitting (app w) = false ->
  let newEvent := mkNewEvent (formData (app w)) (toISOString (client_now env)) in
  let w' := snd (handleSubmit env w) in
  fst (handleSubmit env w) = Ok tt /\
  match error_of (fst (supabase_insert newEvent (supabase w))) with
  | Some e =>
      alerts w' = alerts w ++ [alert_submit_failed
         (if is_Error e then message e else "Unknown error")] /\
      calls w' = calls w ++ [call_supabase_insert newEvent] /\
      firestore w' = firestore w /\ server w' = server w /\ app w' = app w
  | None =>
      alerts w' = alerts w ++ [alert_submit_ok] /\
      showAddForm (app w') = false /\ currentPage (app w') = iftar /\
      formData (app w') = empty_form /\ isSubmitting (app w') = false /\
      exists reads,
        calls w' = calls w ++
          [call_supabase_insert newEvent; call_addDoc newEvent;
           call_post_events (JSON_of_newEvent newEvent)] ++
          (if isGoogleConnected (app w)
           then [call_post_drive_save (JSON_of_formData (formData (app w)))]
           else []) ++ reads /\
        forall c, In c reads -> is_read (build_query (filters (app w))) c
  end.
Proof.
  intros Hs. cbn zeta. unfold handleSubmit. unfold_M. rewrite Hs. step.
  destruct (supabase_insert _ (supabase w)) as [[[e|]|e] s]; step.
  - destruct w as [[] ? ? ? ? ? ?]; step. subst. repeat split; reflexivity.
  - repeat (break_match; step); forget_fetchEvents.
    all: step; repeat split; try assumption; try reflexivity.
    all: eexists; split;
      [ match goal with H : calls _ = _ |- _ => rewrite H end;
        repeat rewrite <- app_assoc; reflexivity
      | match goal with H : filters _ = _ |- _ => try rewrite H in * end;
        assumption ].
  - destruct w as [[] ? ? ? ? ? ?]; step. subst. repeat split; reflexivity.
Qed.

(* ---- deleteEvent ---- *)

Lemma deleteEvent_run (env : Env) (i : EventId) (w : World) :
  let w' := snd (deleteEvent (Some delete_password) true env i w) in
  match error_of (fst (supabase_delete i (supabase w))) with
  | Some e =>
      alerts w' = alerts w ++ [alert_delete_failed] /\
      calls w' = calls w ++ [call_supabase_delete i] /\
      firestore w' = firestore w /\ server w' = server w
  | None =>
      exists reads,
        calls w' = calls w ++ call_supabase_delete i ::
          (match i with IdStr s => [call_deleteDoc s] | IdNum _ => [] end) ++
          call_post_events_delete i :: reads /\
        (forall c, In c reads -> is_read (build_query (filters (app w))) c) /\
        (if net_post_events_delete env
         then alerts w' = alerts w
         else alerts w' = alerts w ++ [alert_delete_failed] /\ reads = [])
  end.
Proof.
  cbn zeta. unfold deleteEvent. unfold_M. step.
  destruct (supabase_delete i (supabase w)) as [[[e|]|e] s]; step.
  - repeat split; reflexivity.
  - destruct i; repeat (break_match; step); try forget_fetchEvents.
    all: step.
    all: try (exists []; repeat split; try reflexivity;
              [repeat rewrite <- app_assoc; reflexivity | intros ? []]).
    all: eexists; repeat split;
      [ match goal with H : calls _ = _ |- _ => rewrite H end;
        repeat rewrite <- app_assoc; reflexivity
      | match goal with H : filters _ = _ |- _ => try rewrite H in * end;
        assumption
      | assumption ].
  - repeat split; reflexivity.
Qed.

(* ---- fetchEvents ---- *)

Lemma fetchEvents_run (w : World) :
  let q := build_query (filters (app w)) in
  let w' := snd (fetchEvents w) in
  if select_failed (fst (supabase_select q (supabase w)))
  then calls w' = calls w ++ [call_supabase_select q; call_getDocs] /\
       match fst (getDocs (firestore w)) with
       | Resolved snapshot =>
           events (app w') = fallback_events (filters (app w)) snapshot
       | Rejected _ => events (app w') = events (app w)
       end
  else calls w' = calls w ++ [call_supabase_select q] /\
       match fst (supabase_select q (supabase w)) with
       | Resolved (mkSelectResult (Some d) _) => events (app w') = d
       | _ => events (app w') = events (app w)
       end.
Proof.
  cbn zeta. unfold fetchEvents, select_failed. unfold_M. step.
  destruct (supabase_select _ (supabase w)) as [[[[d|] [e|]]|e] s]; step;
    try (split; reflexivity);
    destruct (getDocs (firestore w)) as [[snapshot|e'] s']; step;
    (split; [rewrite <- app_assoc; reflexivity | reflexivity]).
Qed.

Lemma truthy_iff (s : string) : string_truthy s = true <-> s <> EmptyString.
Proof. destruct s; simpl; split; congruence. Qed.

Lemma differs_false (d : option string) (x : string) :
  differs d x = false <-> d = Some x.
Proof.
  destruct d as [s|]; simpl; [|split; discriminate].
  rewrite negb_false_iff, String.eqb_eq. split; congruence.
Qed.

Lemma contains_ci_true (d : option string) (x : string) :
  contains_ci d x = true <-> contains_ignoring_case d x.
Proof.
  unfold contains_ci, contains_ignoring_case. destruct d as [s|].
  - rewrite includes_spec. split.
    + intros (pre & post & H). exists s, pre, post. auto.
    + intros (u & pre & post & [= <-] & H). exists pre, post. exact H.
  - split; [discriminate | intros (u & _ & _ & H & _); discriminate].
Qed.

(** The flag [matches] is the conjunction of the active predicates. *)
Lemma matches_iff (f : Filters) (d : EventData) :
  matches f d = true <->
  (f_district f <> EmptyString -> e_district d = Some (f_district f)) /\
  (f_type f <> EmptyString -> e_type d = Some (f_type f)) /\
  (f_upazila f <> EmptyString ->
     contains_ignoring_case (e_upazila d) (f_upazila f)) /\
  (f_village f <> EmptyString ->
     contains_ignoring_case (e_village d) (f_village f)).
Proof.
  unfold matches.
  rewrite <- !truthy_iff, <- !contains_ci_true, <- !differs_false.
  destruct (string_truthy (f_district f)), (string_truthy (f_type f)),
    (string_truthy (f_upazila f)), (string_truthy (f_village f)),
    (differs (e_district d) (f_district f)),
    (differs (e_type d) (f_type f)),
    (contains_ci (e_upazila d) (f_upazila f)),
    (contains_ci (e_village d) (f_village f)); simpl;
    split; intros H; try discriminate; try reflexivity;
    try (repeat split; intros; congruence);
    destruct H as (H1 & H2 & H3 & H4);
    try (specialize (H1 eq_refl)); try (specialize (H2 eq_refl));
    try (specialize (H3 eq_refl)); try (specialize (H4 eq_refl));
    congruence.
Qed.

Lemma fallback_events_In (f : Filters) (snapshot : list Doc) (e : Event) :
  In e (fallback_events f snapshot) <->
  exists d, In d snapshot /\ matches f (doc_data d) = true /\ e = event_of_doc d.
Proof.
  unfold fallback_events, Array_sort. rewrite stable_sort_In, in_map_iff.
  split.
  - intros (d & <- & Hd). apply filter_In in Hd. exists d. tauto.
  - intros (d & Hd & Hm & ->). exists d. split; [reflexivity|].
    apply filter_In. tauto.
Qed.



(* ================================================================== *)
(** ** The claims about the client *)
(* ================================================================== *)

Lemma toISOString_truthy (t : Z) : string_truthy (toISOString t) = true.
Proof.
  unfold toISOString. destruct (civil_from_days _) as [[y m] d].
  cbn [String.concat].
  match goal with |- string_truthy (String.append ?a _) = true => destruct a end;
    reflexivity.
Qed.

Lemma insert_values_of_form (now : Z) (f : FormData) (t : Z) :
  Server.insert_values now (JSON_of_newEvent (mkNewEvent f (toISOString t))) =
  row_of_form f (toISOString t).
Proof.
  unfold Server.insert_values, row_of_form, JSON_of_newEvent, json_of_form,
    Server.or_null, stored_text. cbn -[toISOString].
  rewrite toISOString_truthy. reflexivity.
Qed.

(** C1. In [handleSubmit], when the Supabase insert fails (its result has
    an error, or the request rejects) the failure is shown to the user, the
    insert is the only request sent, and neither Firestore nor the server
    (local cache, Drive) is touched; when it succeeds the user is told the
    event was added, whatever Firestore, the local cache and the Drive
    export did. *)
Theorem handleSubmit_primary_decides (env : Env) (w : World) :
  isSubmitting (app w) = false ->
  let newEvent := mkNewEvent (formData (app w)) (toISOString (client_now env)) in
  let primary := error_of (fst (supabase_insert newEvent (supabase w))) in
  let w' := snd (handleSubmit env w) in
  (forall e, primary = Some e ->
     alerts w' = alerts w ++ [alert_submit_failed
        (if is_Error e then message e else "Unknown error")] /\
     calls w' = calls w ++ [call_supabase_insert newEvent] /\
     firestore w' = firestore w /\ server w' = server w /\ app w' = app w)
  /\
  (primary = None ->
     alerts w' = alerts w ++ [alert_submit_ok] /\
     showAddForm (app w') = false /\ formData (app w') = empty_form).
Proof.
  intros Hs. cbn zeta. destruct (handleSubmit_run env w Hs) as [_ H].
  cbn zeta in H. destruct (error_of _) as [e|].
  - split; [intros e' [= <-]; exact H | discriminate].
  - split; [discriminate | intros _; tauto].
Qed.

(** C2. In [fetchEvents] no request ever goes to the server that holds
    the local cache.  When the Supabase query errors and Firestore answers
    with a snapshot, the list shown is computed from that unfiltered
    snapshot, and an event is in it only if it is one of the snapshot's
    documents and satisfies every active filter: district and type equal
    to the filter, upazila and village containing the filter text, letter
    case aside. *)
Theorem fetchEvents_fallback_filters (w : World) (snapshot : list Doc) :
  let f := filters (app w) in
  let q := build_query f in
  let w' := snd (fetchEvents w) in
  (server w' = server w /\
   exists reads, calls w' = calls w ++ reads /\
     forall c, In c reads -> is_read q c)
  /\
  (select_failed (fst (supabase_select q (supabase w))) = true ->
   fst (getDocs (firestore w)) = Resolved snapshot ->
   calls w' = calls w ++ [call_supabase_select q; call_getDocs] /\
   events (app w') = fallback_events f snapshot /\
   forall e, In e (events (app w')) ->
     (exists d, In d snapshot /\ e = event_of_doc d) /\
     (f_district f <> EmptyString -> e_district (data e) = Some (f_district f)) /\
     (f_type f <> EmptyString -> e_type (data e) = Some (f_type f)) /\
     (f_upazila f <> EmptyString ->
        contains_ignoring_case (e_upazila (data e)) (f_upazila f)) /\
     (f_village f <> EmptyString ->
        contains_ignoring_case (e_village (data e)) (f_village f))).
Proof.
  cbn zeta. split.
  - split; [apply fetchEvents_frame | apply fetchEvents_calls].
  - intros Hf Hg. pose proof (fetchEvents_run w) as H. cbn zeta in H.
    rewrite Hf, Hg in H. destruct H as [Hc He].
    split; [exact Hc|]. split; [exact He|].
    intros e Hin. rewrite He in Hin.
    apply fallback_events_In in Hin. destruct Hin as (d & Hd & Hm & ->).
    apply matches_iff in Hm. split; [exists d; auto | exact Hm].
Qed.

(** C4. In [deleteEvent], when the text typed at the prompt is not the
    hardcoded secret (or the prompt is dismissed), the only effect is the
    wrong-password alert: no request is sent, and Supabase, Firestore, the
    server and the component state are what they were. *)
Theorem deleteEvent_wrong_password
  (password : option string) (confirmed : bool) (env : Env) (i : EventId)
  (w : World) :
  password <> Some delete_password ->
  let w' := snd (deleteEvent password confirmed env i w) in
  alerts w' = alerts w ++ [alert_wrong_password] /\
  calls w' = calls w /\
  supabase w' = supabase w /\ firestore w' = firestore w /\
  server w' = server w /\ app w' = app w.
Proof.
  intros Hp. unfold deleteEvent.
  assert (E : match password with
              | Some p => String.eqb p delete_password
              | None => false
              end = false).
  { destruct password as [p|]; [|reflexivity].
    destruct (String.eqb_spec p delete_password); [subst; congruence | reflexivity]. }
  rewrite E. cbn. repeat split; reflexivity.
Qed.


(** C5 (the code departs from the claim). After the gate, with the
    Supabase delete done, a [fetch] to [/api/events/delete] that rejects
    is not swallowed: the failure alert is shown and the list is not
    refreshed. *)
Theorem deleteEvent_cache_failure_surfaced (env : Env) (i : EventId) (w : World) :
  error_of (fst (supabase_delete i (supabase w))) = None ->
  net_post_events_delete env = false ->
  let w' := snd (deleteEvent (Some delete_password) true env i w) in
  alerts w' = alerts w ++ [alert_delete_failed] /\
  calls w' = calls w ++ call_supabase_delete i ::
    (match i with IdStr s => [call_deleteDoc s] | IdNum _ => [] end) ++
    [call_post_events_delete i].
Proof.
  intros Hp Hn. cbn zeta. pose proof (deleteEvent_run env i w) as H.
  cbn zeta in H. rewrite Hp, Hn in H.
  destruct H as (reads & Hc & _ & Ha & ->). split; assumption.
Qed.

Lemma StronglySorted_weaken {A : Type} (good : A -> Prop)
  (R R' : A -> A -> Prop) (l : list A) :
  (forall a b, good a -> good b -> R a b -> R' a b) ->
  Forall good l -> StronglySorted R l -> StronglySorted R' l.
Proof.
  intros HR Hg Hs. induction Hs as [|x l Hs IH Hall]; [constructor|].
  inversion Hg as [|? ? Hx Hl]; subst.
  constructor; [apply IH; exact Hl|].
  rewrite Forall_forall in *. intros y Hy. apply HR; auto.
Qed.

(** With valid dates the fallback's list is in descending date order. *)
Lemma fallback_events_sorted (f : Filters) (snapshot : list Doc) :
  (forall d, In d snapshot -> date_of (event_of_doc d) <> None) ->
  StronglySorted date_ge (fallback_events f snapshot).
Proof.
  intros Hvalid. unfold fallback_events, Array_sort.
  set (before := fun x y : Event =>
         match by_date_desc x y with Some v => v <=? 0 | None => true end).
  set (good := fun e : Event => date_of e <> None).
  assert (Hg : Forall good
                 (map event_of_doc
                    (filter (fun d => matches f (doc_data d)) snapshot))).
  { rewrite Forall_forall. intros e He. apply in_map_iff in He.
    destruct He as (d & <- & Hd). apply filter_In in Hd. apply Hvalid, Hd. }
  apply (StronglySorted_weaken good (fun a b => before a b = true)).
  - intros a b Ha Hb. unfold before, by_date_desc, date_ge, good in *.
    destruct (date_of a), (date_of b); try congruence. cbn. lia.
  - rewrite Forall_forall in *. intros e He.
    apply Hg, (proj1 (stable_sort_In before e _)), He.
  - apply (stable_sort_sorted before good); [ | | exact Hg].
    + intros a b Ha Hb. unfold before, by_date_desc, good in *.
      destruct (date_of a), (date_of b); try congruence. cbn. lia.
    + intros a b c Ha Hb Hc. unfold before, by_date_desc, good in *.
      destruct (date_of a), (date_of b), (date_of c); try congruence. cbn. lia.
Qed.

(** C3 (amended). On the fallback path, when every stored date parses,
    the list is in non-increasing order of the time [date_of], in which
    an event without [created_at] counts as time 0 (the epoch), not as the
    earliest time.  The rows [GET /api/events] returns are in
    non-increasing order of SQLite's order on the [created_at] text, in
    which NULL is the smallest, so rows without it are last.  On the
    primary path the client asks Supabase for descending [created_at] and
    shows the rows in the order they come back. *)
Theorem listing_order_by_path (w : World) (t : Server.Table) :
  let f := filters (app w) in
  let q := build_query f in
  (forall snapshot,
     (forall d, In d snapshot -> date_of (event_of_doc d) <> None) ->
     StronglySorted date_ge (fallback_events f snapshot)) /\
  (forall e, e_created_at (data e) = None -> date_of e = Some 0) /\
  StronglySorted
    (fun a b => Server.sql_le (e_created_at (Server.row_data b))
                              (e_created_at (Server.row_data a)) = true)
    (Server.select_events t) /\
  (forall rows,
     fst (supabase_select q (supabase w)) =
       Resolved (mkSelectResult (Some rows) None) ->
     q_order q = "created_at" /\ q_ascending q = false /\
     events (app (snd (fetchEvents w))) = rows).
Proof.
  cbn zeta. split; [intros snapshot; apply fallback_events_sorted|].
  split; [intros e He; unfold date_of; rewrite He; reflexivity|].
  split.
  - unfold Server.select_events.
    apply (stable_sort_sorted _ (fun _ => True)).
    + intros a b _ _. apply sql_le_total.
    + intros a b c _ _ _ H1 H2. eapply sql_le_trans; eassumption.
    + rewrite Forall_forall. auto.
  - intros rows Hr. pose proof (fetchEvents_run w) as H. cbn zeta in H.
    rewrite Hr in H. cbn in H. destruct H as [_ H]. auto.
Qed.

(** C6 (amended). One submission sends the same [newEvent] -- the form
    fields and a [created_at] computed once on the client -- to Supabase,
    to Firestore and (as JSON) to the local cache, whose row keeps that
    [created_at] and the form's values, an empty text being stored as
    NULL; the Drive export is sent the form fields, the same values as in
    [newEvent].  Nothing else is written. *)
Theorem handleSubmit_copies (env : Env) (w : World) :
  isSubmitting (app w) = false ->
  let f := formData (app w) in
  let newEvent := mkNewEvent f (toISOString (client_now env)) in
  let w' := snd (handleSubmit env w) in
  (exists requests, calls w' = calls w ++ requests /\
     forall c, In c requests ->
       c = call_supabase_insert newEvent \/ c = call_addDoc newEvent \/
       c = call_post_events (JSON_of_newEvent newEvent) \/
       c = call_post_drive_save (JSON_of_formData f) \/
       is_read (build_query (filters (app w))) c) /\
  JSON_of_formData f = without_created_at (JSON_of_newEvent newEvent) /\
  (forall fl now st tb,
     Server.db st = Some tb -> Server.stmt_fails fl = false ->
     Server.db (snd (Server.post_events fl now (JSON_of_newEvent newEvent) st)) =
     Some (Server.mkTable
             (Server.rows tb ++
                [Server.mkRow (Server.seq tb + 1)
                   (row_of_form f (created_at newEvent))])
             (Server.seq tb + 1))).
Proof.
  intros Hs. cbn zeta. destruct (handleSubmit_run env w Hs) as [_ H].
  cbn zeta in H. split; [|split; [reflexivity|]].
  - destruct (error_of _) as [e|].
    + destruct H as (_ & Hc & _). eexists. split; [exact Hc|].
      intros c [Hin|[]]. left; symmetry; exact Hin.
    + destruct H as (_ & _ & _ & _ & _ & reads & Hc & Hr).
      eexists. split; [exact Hc|]. intros c Hin.
      cbn [Datatypes.app In] in Hin.
      destruct Hin as [Hin|[Hin|[Hin|Hin]]];
        [left; symmetry; exact Hin
        |right; left; symmetry; exact Hin
        |right; right; left; symmetry; exact Hin|].
      apply in_app_or in Hin. destruct Hin as [Hin|Hin];
        [|right; right; right; right; apply Hr; exact Hin].
      destruct (isGoogleConnected (app w)); [|destruct Hin].
      destruct Hin as [Hin|[]].
      right; right; right; left; symmetry; exact Hin.
  - intros fl now st tb Hdb Hst. unfold Server.post_events.
    rewrite Hdb, Hst. cbn -[toISOString Server.insert_values JSON_of_newEvent].
    rewrite insert_values_of_form. reflexivity.
Qed.

(** What a submission tells the user: only what Supabase decided. *)
Lemma handleSubmit_alerts (env : Env) (w : World) :
  isSubmitting (app w) = false ->
  let newEvent := mkNewEvent (formData (app w)) (toISOString (client_now env)) in
  let w' := snd (handleSubmit env w) in
  (exists rest, calls w' = calls w ++ call_supabase_insert newEvent :: rest) /\
  match error_of (fst (supabase_insert newEvent (supabase w))) with
  | Some e => alerts w' = alerts w ++ [alert_submit_failed
                (if is_Error e then message e else "Unknown error")]
  | None => alerts w' = alerts w ++ [alert_submit_ok]
  end.
Proof.
  intros Hs. cbn zeta. destruct (handleSubmit_run env w Hs) as [_ H].
  cbn zeta in H. destruct (error_of _) as [e|].
  - destruct H as (Ha & Hc & _). split; [exists []; exact Hc | exact Ha].
  - destruct H as (Ha & _ & _ & _ & _ & reads & Hc & _).
    split; [eexists; exact Hc | exact Ha].
Qed.

Lemma bad_input_value (typed : string) :
  bad_input typed = true -> input_number_value typed = "".
Proof.
  unfold bad_input, input_number_value. intros H.
  apply andb_prop in H. destruct H as [_ H].
  destruct (valid_floating_point_number typed); [discriminate|reflexivity].
Qed.

Lemma press_submit_blocked (others_valid : bool) (lat_text lng_text : string)
  (env : Env) (w : World) :
  bad_input lat_text = true \/ bad_input lng_text = true ->
  press_submit others_valid lat_text lng_text env w = (Ok tt, w).
Proof.
  unfold press_submit. intros [H|H]; rewrite H.
  - rewrite andb_false_r. reflexivity.
  - rewrite andb_false_r. reflexivity.
Qed.

Lemma press_submit_valid (lat_text lng_text : string) (env : Env) (w : World) :
  bad_input lat_text = false -> bad_input lng_text = false ->
  press_submit true lat_text lng_text env w = handleSubmit env w.
Proof. unfold press_submit. intros -> ->. reflexivity. Qed.

Lemma type_lat_empty_box (typed : string) (w : World) :
  bad_input typed = true -> type_lat "" typed w = (Ok tt, w).
Proof.
  intros H. unfold type_lat. rewrite (bad_input_value typed H). reflexivity.
Qed.

Lemma type_lng_empty_box (typed : string) (w : World) :
  bad_input typed = true -> type_lng "" typed w = (Ok tt, w).
Proof.
  intros H. unfold type_lng. rewrite (bad_input_value typed H). reflexivity.
Qed.

Lemma type_lat_over_number (value typed : string) (w : World) :
  bad_input typed = true -> string_truthy value = true ->
  let w1 := snd (type_lat value typed w) in
  lat (formData (app w1)) = Some PrimFloat.nan /\
  isSubmitting (app w1) = isSubmitting (app w) /\
  calls w1 = calls w /\ alerts w1 = alerts w.
Proof.
  intros H Hv. unfold type_lat. rewrite (bad_input_value typed H).
  destruct value as [|c r]; [discriminate|].
  repeat split; reflexivity.
Qed.

Lemma type_lng_over_number (value typed : string) (w : World) :
  bad_input typed = true -> string_truthy value = true ->
  let w1 := snd (type_lng value typed w) in
  lng (formData (app w1)) = Some PrimFloat.nan /\
  isSubmitting (app w1) = isSubmitting (app w) /\
  calls w1 = calls w /\ alerts w1 = alerts w.
Proof.
  intros H Hv. unfold type_lng. rewrite (bad_input_value typed H).
  destruct value as [|c r]; [discriminate|].
  repeat split; reflexivity.
Qed.

(** A submission that went through handed [newEvent] itself to Firestore. *)
Lemma handleSubmit_firestore_copy (env : Env) (w : World) :
  isSubmitting (app w) = false ->
  let newEvent := mkNewEvent (formData (app w)) (toISOString (client_now env)) in
  error_of (fst (supabase_insert newEvent (supabase w))) = None ->
  In (call_addDoc newEvent) (calls (snd (handleSubmit env w))).
Proof.
  intros Hs newEvent He. destruct (handleSubmit_run env w Hs) as [_ H].
  cbn zeta in H. fold newEvent in H. rewrite He in H.
  destruct H as (_ & _ & _ & _ & _ & reads & Hc & _).
  rewrite Hc. apply in_or_app. right. right. left. reflexivity.
Qed.

(** C9 (amended). The code validates no coordinate, but the browser
    does.  For a text [typed] that is not a number:
    - typed into an empty coordinate box it changes nothing in the form
      (the input's value stays [""], so [onChange] does not run);
    - while it is in the box, pressing submit does nothing at all: the
      browser finds the number input invalid and does not fire [submit];
    - typed over a number (the input's [value] was not empty) it puts
      [NaN] in the form, and removing the text afterwards changes nothing
      again.  Submit then goes through: the JSON of the event has no
      coordinate ([null]), the row of the local cache has NULL, the only
      alert is the one the Supabase outcome decides, and the object
      handed to Firestore still holds [NaN].
    The same holds of the longitude. *)
Theorem malformed_coordinate_blocked_or_absent
  (value typed other : string) (others_valid : bool) (env : Env) (w : World) :
  bad_input typed = true ->
  bad_input other = false ->
  string_truthy value = true ->
  isSubmitting (app w) = false ->
  (type_lat "" typed w = (Ok tt, w) /\
   (forall lng_text w0,
      press_submit others_valid typed lng_text env w0 = (Ok tt, w0)) /\
   let w1 := snd (type_lat value typed w) in
   let w2 := snd (type_lat "" "" w1) in
   let newEvent := mkNewEvent (formData (app w2)) (toISOString (client_now env)) in
   let w' := snd (press_submit true "" other env w2) in
   lat (formData (app w1)) = Some PrimFloat.nan /\
   w2 = w1 /\
   e_lat (JSON_of_newEvent newEvent) = None /\
   (forall now, e_lat (Server.insert_values now (JSON_of_newEvent newEvent)) = None) /\
   (exists rest, calls w' = calls w ++ call_supabase_insert newEvent :: rest) /\
   match error_of (fst (supabase_insert newEvent (supabase w2))) with
   | Some e => alerts w' = alerts w ++ [alert_submit_failed
                 (if is_Error e then message e else "Unknown error")]
   | None => alerts w' = alerts w ++ [alert_submit_ok] /\
             In (call_addDoc newEvent) (calls w') /\
             lat (form newEvent) = Some PrimFloat.nan
   end)
  /\
  (type_lng "" typed w = (Ok tt, w) /\
   (forall lat_text w0,
      press_submit others_valid lat_text typed env w0 = (Ok tt, w0)) /\
   let w1 := snd (type_lng value typed w) in
   let w2 := snd (type_lng "" "" w1) in
   let newEvent := mkNewEvent (formData (app w2)) (toISOString (client_now env)) in
   let w' := snd (press_submit true other "" env w2) in
   lng (formData (app w1)) = Some PrimFloat.nan /\
   w2 = w1 /\
   e_lng (JSON_of_newEvent newEvent) = None /\
   (forall now, e_lng (Server.insert_values now (JSON_of_newEvent newEvent)) = None) /\
   (exists rest, calls w' = calls w ++ call_supabase_insert newEvent :: rest) /\
   match error_of (fst (supabase_insert newEvent (supabase w2))) with
   | Some e => alerts w' = alerts w ++ [alert_submit_failed
                 (if is_Error e then message e else "Unknown error")]
   | None => alerts w' = alerts w ++ [alert_submit_ok] /\
             In (call_addDoc newEvent) (calls w') /\
             lng (form newEvent) = Some PrimFloat.nan
   end).
Proof.
  intros Hb Ho Hv Hs. split.
  - split; [apply type_lat_empty_box; exact Hb|].
    split; [intros; apply press_submit_blocked; left; exact Hb|].
    cbn zeta.
    destruct (type_lat_over_number value typed w Hb Hv) as (Hl & Hs1 & Hc & Ha).
    cbn zeta in *. rewrite Hs in Hs1.
    change (type_lat "" "" (snd (type_lat value typed w)))
      with (@Ok unit tt, snd (type_lat value typed w)).
    cbn [snd]. set (w1 := snd (type_lat value typed w)) in *.
    rewrite (press_submit_valid "" other env w1 eq_refl Ho).
    pose proof (handleSubmit_alerts env w1 Hs1) as [Hc' Ha']. cbn zeta in *.
    pose proof (handleSubmit_firestore_copy env w1 Hs1) as Hf. cbn zeta in Hf.
    rewrite Hc in Hc'. rewrite Ha in Ha'.
    split; [exact Hl|]. split; [reflexivity|].
    split; [unfold JSON_of_newEvent, json_of_form; cbn -[toISOString];
            rewrite Hl; reflexivity|].
    split; [intros now;
            unfold JSON_of_newEvent, json_of_form, Server.insert_values;
            cbn -[toISOString]; rewrite Hl; reflexivity|].
    split; [exact Hc'|].
    destruct (error_of _) as [e|]; [exact Ha'|].
    split; [exact Ha'|]. split; [apply Hf; reflexivity | exact Hl].
  - split; [apply type_lng_empty_box; exact Hb|].
    split; [intros; apply press_submit_blocked; right; exact Hb|].
    cbn zeta.
    destruct (type_lng_over_number value typed w Hb Hv) as (Hl & Hs1 & Hc & Ha).
    cbn zeta in *. rewrite Hs in Hs1.
    change (type_lng "" "" (snd (type_lng value typed w)))
      with (@Ok unit tt, snd (type_lng value typed w)).
    cbn [snd]. set (w1 := snd (type_lng value typed w)) in *.
    rewrite (press_submit_valid other "" env w1 Ho eq_refl).
    pose proof (handleSubmit_alerts env w1 Hs1) as [Hc' Ha']. cbn zeta in *.
    pose proof (handleSubmit_firestore_copy env w1 Hs1) as Hf. cbn zeta in Hf.
    rewrite Hc in Hc'. rewrite Ha in Ha'.
    split; [exact Hl|]. split; [reflexivity|].
    split; [unfold JSON_of_newEvent, json_of_form; cbn -[toISOString];
            rewrite Hl; reflexivity|].
    split; [intros now;
            unfold JSON_of_newEvent, json_of_form, Server.insert_values;
            cbn -[toISOString]; rewrite Hl; reflexivity|].
    split; [exact Hc'|].
    destruct (error_of _) as [e|]; [exact Ha'|].
    split; [exact Ha'|]. split; [apply Hf; reflexivity | exact Hl].
Qed.

End ClientFacts.

(* ================================================================== *)
(** ** The claims about the server *)
(* ================================================================== *)

Section ServerFacts.

Import Server.

Lemma fresh_id_above (d : list DriveFile) (f : DriveFile) :
  In f d -> (file_id f < fresh_id d)%nat.
Proof.
  unfold fresh_id. induction d as [|g d IH]; [intros []|].
  cbn [map fold_right]. intros [->|Hin]; [lia|].
  specialize (IH Hin). lia.
Qed.

Lemma fresh_id_new (d : list DriveFile) : ~ In (fresh_id d) (map file_id d).
Proof.
  intros Hin. apply in_map_iff in Hin. destruct Hin as (f & Hf & Hin).
  apply fresh_id_above in Hin. lia.
Qed.

(** C7. [POST /api/drive/save] for a session without tokens answers 401
    with the body [{error: "Not connected to Google Drive"}] and changes
    nothing: no Drive request is made.  With tokens, a Drive request that
    fails makes the answer a 500. *)
Theorem drive_save_needs_tokens (fl : Faults) (now : Z)
  (body : DriveBody) (st : State) :
  (tokens st = None ->
   post_drive_save fl now body st =
     (mkResponse 401 (ErrorBody "Not connected to Google Drive"), st))
  /\
  (tokens st <> None ->
   exists made,
     drive_calls (snd (post_drive_save fl now body st)) =
       drive_calls st ++ made /\
     ((exists c, In (c, false) made) ->
      fst (post_drive_save fl now body st) =
        mkResponse 500 (ErrorBody "Failed to save to Drive"))).
Proof.
  destruct body as [eventData name_is_null].
  unfold post_drive_save, create_event_file. cbn [Server.eventData Server.name_is_null]. split.
  - intros ->. reflexivity.
  - intros Ht. destruct (tokens st) as [tk|]; [clear Ht|congruence].
    destruct (files_list_fails fl).
    { eexists. split; [reflexivity|]. reflexivity. }
    cbn [drive log_call].
    destruct (list_folders (drive st)) as [|g gs].
    + destruct (folder_create_fails fl).
      { eexists. split; [cbn; rewrite <- app_assoc; reflexivity|]. reflexivity. }
      destruct eventData as [ed|].
      * destruct (file_create_fails fl).
        { eexists. split; [cbn; rewrite <- !app_assoc; reflexivity|]. reflexivity. }
        eexists. split; [cbn; rewrite <- !app_assoc; reflexivity|].
        intros (c & [H|[H|[H|[]]]]); discriminate.
      * eexists. split; [cbn; rewrite <- !app_assoc; reflexivity|]. reflexivity.
    + destruct eventData as [ed|].
      * destruct (file_create_fails fl).
        { eexists. split; [cbn; rewrite <- !app_assoc; reflexivity|]. reflexivity. }
        eexists. split; [cbn; rewrite <- !app_assoc; reflexivity|].
        intros (c & [H|[H|[]]]); discriminate.
      * eexists. split; [reflexivity|]. reflexivity.
Qed.

Lemma json_files_app (a b : list DriveFile) :
  json_files (a ++ b) = json_files a ++ json_files b.
Proof. apply filter_app. Qed.

(** One export that Drive accepts. *)
Lemma drive_export_run (fl : Faults) (now : Z) (ed : EventData)
  (null : bool) (st : State) :
  tokens st <> None ->
  files_list_fails fl = false -> folder_create_fails fl = false ->
  file_create_fails fl = false ->
  let out := post_drive_save fl now (mkDriveBody (Some ed) null) st in
  exists folderId fileId created_folder,
    fst out = mkResponse 200 (SuccessFile fileId) /\
    match list_folders (drive st) with
    | f :: _ => folderId = file_id f /\ created_folder = []
    | [] =>
        created_folder =
          [mkDriveFile folderId folder_name folder_mimeType [] None false] /\
        ~ In folderId (map file_id (drive st))
    end /\
    drive (snd out) =
      drive st ++ created_folder ++
      [mkDriveFile fileId (export_file_name null ed now) json_mimeType
         [folderId] (Some (mkJsonText 2 ed)) false] /\
    ~ In fileId (map file_id (drive st ++ created_folder)) /\
    tokens (snd out) = tokens st.
Proof.
  intros Ht Hl Hf Hc. cbn zeta. unfold post_drive_save, create_event_file.
  cbn [eventData name_is_null].
  destruct (tokens st) as [tk|] eqn:Etk; [clear Ht|congruence].
  rewrite Hl, Hc. cbn [drive log_call].
  destruct (list_folders (drive st)) as [|g gs] eqn:Eg.
  - rewrite Hf. cbn.
    exists (fresh_id (drive st)),
      (fresh_id (drive st ++
         [mkDriveFile (fresh_id (drive st)) folder_name folder_mimeType []
            None false])), 
      [mkDriveFile (fresh_id (drive st)) folder_name folder_mimeType [] None
         false].
    split; [reflexivity|]. split; [split; [reflexivity | apply fresh_id_new]|].
    split; [rewrite <- app_assoc; reflexivity|].
    split; [apply fresh_id_new | exact Etk].
  - cbn. exists (file_id g), (fresh_id (drive st)), [].
    split; [reflexivity|]. split; [split; reflexivity|].
    split; [reflexivity|]. rewrite app_nil_r.
    split; [apply fresh_id_new | exact Etk].
Qed.

Lemma drive_export_count (fl : Faults) (now : Z) (ed : EventData)
  (null : bool) (st : State) :
  tokens st <> None ->
  files_list_fails fl = false -> folder_create_fails fl = false ->
  file_create_fails fl = false ->
  let out := post_drive_save fl now (mkDriveBody (Some ed) null) st in
  List.length (json_files (drive (snd out))) =
    S (List.length (json_files (drive st))) /\
  tokens (snd out) = tokens st.
Proof.
  intros Ht Hl Hf Hc. cbn zeta.
  destruct (drive_export_run fl now ed null st Ht Hl Hf Hc)
    as (folderId & fileId & cf & _ & Hloc & Hd & _ & Htk).
  cbn zeta in *. split; [|exact Htk].
  rewrite Hd, !json_files_app, !length_app.
  assert (Hcf : json_files cf = []).
  { destruct (list_folders (drive st));
      [destruct Hloc as [-> _] | destruct Hloc as [_ ->]]; reflexivity. }
  rewrite Hcf. cbn. lia.
Qed.

(** C8. An export that Drive accepts uses the first folder named
    'Iftar Shondhane' that Drive lists, or creates that folder when none
    is listed, and then adds one new file to it, under an identifier no
    file had.  The name of the file is the event's name, ["_"], the time
    at which the export is submitted to the server ([Date.now()] there,
    in milliseconds) and [".json"]; an event without a name is written
    [undefined], one whose name is [null] is written [null].  The content
    is the event payload as JSON with an indentation of 2.  Exporting the
    same event again, at whatever time, adds another file. *)
Theorem drive_export_creates_file (fl : Faults) (now : Z) (ed : EventData)
  (null : bool) (st : State) :
  tokens st <> None ->
  files_list_fails fl = false -> folder_create_fails fl = false ->
  file_create_fails fl = false ->
  let body := mkDriveBody (Some ed) null in
  let out := post_drive_save fl now body st in
  (exists folderId fileId created_folder,
     fst out = mkResponse 200 (SuccessFile fileId) /\
     match list_folders (drive st) with
     | f :: _ => folderId = file_id f /\ created_folder = []
     | [] =>
         created_folder =
           [mkDriveFile folderId folder_name folder_mimeType [] None false] /\
         ~ In folderId (map file_id (drive st))
     end /\
     drive (snd out) =
       drive st ++ created_folder ++
       [mkDriveFile fileId
          (String.append
             (match e_name ed with
              | Some s => s
              | None => if null then "null" else "undefined"
              end)
             (String.append "_" (String.append (decimal now) ".json")))
          json_mimeType [folderId] (Some (mkJsonText 2 ed)) false] /\
     ~ In fileId (map file_id (drive st ++ created_folder))) /\
  List.length (json_files (drive (snd out))) =
    S (List.length (json_files (drive st))) /\
  (forall now',
     List.length (json_files
               (drive (snd (post_drive_save fl now' body (snd out))))) =
     S (S (List.length (json_files (drive st))))).
Proof.
  intros Ht Hl Hf Hc. cbn zeta.
  destruct (drive_export_run fl now ed null st Ht Hl Hf Hc)
    as (folderId & fileId & cf & Hr & Hloc & Hd & Hnew & Htk).
  destruct (drive_export_count fl now ed null st Ht Hl Hf Hc) as [Hn Htk'].
  cbn zeta in *. split; [|split; [exact Hn|]].
  - exists folderId, fileId, cf. repeat split; assumption.
  - intros now'. rewrite <- Hn. apply drive_export_count; try assumption.
    rewrite Htk. exact Ht.
Qed.

Context {P : Platform}.

Lemma filter_all (A : Type) (p : A -> bool) (l : list A) :
  (forall x, In x l -> p x = true) -> filter p l = l.
Proof.
  induction l as [|x l IH]; [reflexivity|]. intros H. cbn.
  rewrite (H x (or_introl eq_refl)), IH; [reflexivity|].
  intros y Hy. apply H. right. exact Hy.
Qed.

(** C10. [POST /api/events/delete] answers [{success: true}] also when no
    row has the identifier, and the table is then what it was; whenever
    the statement runs the answer is that success; an error answer means
    the database was not initialized or the statement threw. *)
Theorem delete_of_absent_id_succeeds (fl : Faults) (i : JsonId) (st : State) :
  (forall t, db st = Some t ->
     stmt_fails fl = false -> bindable i = true ->
     (forall r, In r (rows t) -> id_matches (row_id r) i = false) ->
     post_events_delete fl i st = (mkResponse 200 SuccessBody, st))
  /\
  (forall t t', db st = Some t -> run_delete fl i t = Some t' ->
     fst (post_events_delete fl i st) = mkResponse 200 SuccessBody)
  /\
  (status (fst (post_events_delete fl i st)) <> 200 ->
   db st = None \/ exists t, db st = Some t /\ run_delete fl i t = None).
Proof.
  unfold post_events_delete. split; [|split].
  - intros t Hdb Hs Hb Hno. rewrite Hdb. unfold run_delete.
    rewrite Hs, Hb. cbn [orb negb].
    rewrite filter_all by (intros r Hr; rewrite (Hno r Hr); reflexivity).
    destruct st as [d tk dr dc]; destruct t as [rs sq]; cbn in *.
    subst d. reflexivity.
  - intros t t' Hdb Hr. rewrite Hdb, Hr. reflexivity.
  - destruct (db st) as [t|]; [|intros _; left; reflexivity].
    destruct (run_delete fl i t) as [t'|] eqn:E; cbn.
    + intros H; congruence.
    + intros _. right. exists t. split; [reflexivity | exact E].
Qed.

End ServerFacts.

(* ================================================================== *)
(** ** The claims on concrete runs *)
(* ================================================================== *)

Section Runs.

Import Demo.

(** Supabase up, Firestore down, Drive connected: the submission succeeds. *)
Lemma handleSubmit_primary_decides_witness :
  let w := start true iftar_form connected_server up_supabase down_firestore in
  let w' := snd (handleSubmit (calm 1710158400123 1710158400500) w) in
  isSubmitting (app w) = false /\
  alerts w' = alerts w ++ [alert_submit_ok] /\
  showAddForm (app w') = false /\ formData (app w') = empty_form.
Proof.
  intros w w'. split; [reflexivity|].
  exact (proj2 (handleSubmit_primary_decides
                  (calm 1710158400123 1710158400500) w eq_refl) eq_refl).
Defined.

(** Supabase down: Firestore's snapshot, filtered by district "Dhaka" and
    upazila "sav". *)
Lemma fetchEvents_fallback_filters_witness :
  let w := browsing (mkFilters "Dhaka" "sav" "" "") down_supabase
             stocked_firestore in
  events (app (snd (fetchEvents w))) =
    [event_of_doc march_doc; event_of_doc old_doc] /\
  calls (snd (fetchEvents w)) =
    [call_supabase_select (build_query (mkFilters "Dhaka" "sav" "" ""));
     call_getDocs].
Proof.
  intros w.
  destruct (fetchEvents_fallback_filters w
              [old_doc; undated_doc; march_doc; april_doc]) as [_ H].
  destruct (H eq_refl eq_refl) as (Hc & He & _).
  split; [rewrite He; vm_compute; reflexivity | exact Hc].
Defined.

(** C3, as stated, fails on the fallback path: an event without
    [created_at] is listed before one dated 1969-12-31. *)
Lemma fallback_missing_not_last :
  fallback_events no_filters [old_doc; undated_doc] =
    [event_of_doc undated_doc; event_of_doc old_doc] /\
  ~ StronglySorted missing_is_earliest
      (fallback_events no_filters [old_doc; undated_doc]).
Proof.
  assert (E : fallback_events no_filters [old_doc; undated_doc] =
              [event_of_doc undated_doc; event_of_doc old_doc])
    by (vm_compute; reflexivity).
  split; [exact E|]. rewrite E. intros H.
  inversion H as [|? ? _ Hall]; subst.
  inversion Hall as [|? ? Hbad _]; subst.
  vm_compute in Hbad. exact Hbad.
Qed.

Lemma listing_order_by_path_witness :
  StronglySorted date_ge
    (fallback_events no_filters [march_doc; undated_doc; april_doc]) /\
  fallback_events no_filters [march_doc; undated_doc; april_doc] =
    [event_of_doc april_doc; event_of_doc march_doc; event_of_doc undated_doc].
Proof.
  split; [|vm_compute; reflexivity].
  apply (listing_order_by_path
           (browsing no_filters up_supabase up_firestore)
           (Server.mkTable [cached_row] 1)).
  intros d [<-|[<-|[<-|[]]]]; vm_compute; discriminate.
Defined.

Lemma deleteEvent_wrong_password_witness :
  let w := start false iftar_form caching_server up_supabase stocked_firestore in
  let w' := snd (deleteEvent (Some "letmein") true (calm 0 0) (IdNum 1) w) in
  alerts w' = [alert_wrong_password] /\ calls w' = [] /\
  supabase w' = supabase w /\ firestore w' = firestore w /\
  server w' = server w /\ app w' = app w.
Proof.
  intros w w'.
  apply (deleteEvent_wrong_password (Some "letmein") true (calm 0 0) (IdNum 1) w).
  discriminate.
Defined.

(** The server is unreachable: the delete is reported as failed although
    Supabase has deleted the event. *)
Lemma deleteEvent_cache_failure_surfaced_witness :
  let env := mkEnv 0 0 no_faults true false true in
  let w := start false iftar_form caching_server up_supabase stocked_firestore in
  let w' := snd (deleteEvent (Some delete_password) true env (IdNum 1) w) in
  alerts w' = [alert_delete_failed] /\
  calls w' = [call_supabase_delete (IdNum 1); call_post_events_delete (IdNum 1)].
Proof.
  intros env w w'.
  apply (deleteEvent_cache_failure_surfaced env (IdNum 1) w eq_refl eq_refl).
Defined.

(** C6, as stated, fails: the Drive export of a submission carries no
    creation timestamp, and the row of the local cache has NULL where the
    form (and the Supabase copy) has an empty text. *)
Lemma submission_copies_differ :
  let w := start true iftar_form connected_server up_supabase up_firestore in
  let w' := snd (handleSubmit (calm 1710158400123 1710158400500) w) in
  ~ copies_share_created_at (calls w') /\
  (exists row, option_map Server.rows (Server.db (server w')) = Some [row] /\
     e_description (Server.row_data row) = None /\
     description iftar_form = "").
Proof.
  intros w w'. split.
  - intros [ts Hts].
    assert (H1 : In (call_supabase_insert
                       (mkNewEvent iftar_form "2024-03-11T12:00:00.123Z"))
                    (calls w')) by (vm_compute; left; reflexivity).
    assert (H2 : In (call_post_drive_save (JSON_of_formData iftar_form))
                    (calls w'))
      by (vm_compute; right; right; right; left; reflexivity).
    apply Hts in H1. apply Hts in H2. cbn in H1, H2.
    destruct H1 as [H1|H1]; [discriminate|].
    destruct H2 as [H2|H2]; [discriminate|]. congruence.
  - exists (Server.mkRow 1 (row_of_form iftar_form "2024-03-11T12:00:00.123Z")).
    split; [vm_compute; reflexivity|]. split; reflexivity.
Qed.

Lemma handleSubmit_copies_witness :
  let w := start true iftar_form connected_server up_supabase up_firestore in
  let ne := mkNewEvent iftar_form "2024-03-11T12:00:00.123Z" in
  exists requests,
    calls (snd (handleSubmit (calm 1710158400123 1710158400500) w)) =
      calls w ++ requests /\
    forall c, In c requests ->
      c = call_supabase_insert ne \/ c = call_addDoc ne \/
      c = call_post_events (JSON_of_newEvent ne) \/
      c = call_post_drive_save (JSON_of_formData iftar_form) \/
      is_read (build_query no_filters) c.
Proof.
  intros w ne.
  apply (handleSubmit_copies (calm 1710158400123 1710158400500) w eq_refl).
Defined.

(** C9, as stated, fails: with a malformed text in the latitude box
    nothing is coerced and stored.  Typed into the empty box, the text
    leaves the form's latitude as it was, and pressing submit sends
    nothing: the browser refuses the form and shows its own message. *)
Lemma malformed_text_blocks_submission :
  let env := calm 1710158400123 1710158400500 in
  let w := start false iftar_form fresh_server up_supabase up_firestore in
  bad_input "12abc" = true /\
  snd (type_lat "" "12abc" w) = w /\
  press_submit true "12abc" "" env w = (Ok tt, w) /\
  ~ sent_without_lat "12abc" "" env w.
Proof.
  intros env w. split; [reflexivity|]. split; [reflexivity|].
  split; [reflexivity|].
  intros (e & rest & H & _).
  change (@nil Call = [] ++ call_supabase_insert e :: rest) in H.
  discriminate H.
Qed.

Lemma malformed_coordinate_blocked_or_absent_witness :
  let env := calm 1710158400123 1710158400500 in
  let w := start false (set_lat (Some 23.5%float) iftar_form) fresh_server
             up_supabase up_firestore in
  let w1 := snd (type_lat "23.5" "12abc" w) in
  type_lat "" "12abc" w = (Ok tt, w) /\
  lat (formData (app w1)) = Some PrimFloat.nan /\
  alerts (snd (press_submit true "" "" env w1)) = [alert_submit_ok].
Proof.
  intros env w w1.
  destruct (malformed_coordinate_blocked_or_absent "23.5" "12abc" "" true
              env w eq_refl eq_refl eq_refl eq_refl)
    as [(H1 & _ & Hl & _ & _ & _ & _ & Ha & _) _].
  split; [exact H1|]. split; [exact Hl | exact Ha].
Defined.

Lemma drive_save_needs_tokens_witness :
  Server.post_drive_save no_faults 1710158400500
    (drive_body (JSON_of_formData iftar_form)) fresh_server =
    (Server.mkResponse 401 (Server.ErrorBody "Not connected to Google Drive"),
     fresh_server) /\
  fst (Server.post_drive_save (Server.mkFaults false true false false)
         1710158400500 (drive_body (JSON_of_formData iftar_form)) connected_server) =
    Server.mkResponse 500 (Server.ErrorBody "Failed to save to Drive").
Proof.
  split.
  - apply (drive_save_needs_tokens no_faults 1710158400500
             (drive_body (JSON_of_formData iftar_form)) fresh_server).
    reflexivity.
  - destruct (drive_save_needs_tokens (Server.mkFaults false true false false)
                1710158400500 (drive_body (JSON_of_formData iftar_form))
                connected_server) as [_ H].
    destruct H as (made & Hm & H); [discriminate|].
    apply H. exists (Server.files_list Server.folder_query).
    apply app_inv_head in Hm. rewrite <- Hm. left. reflexivity.
Defined.

Lemma drive_export_creates_file_witness :
  let body := drive_body (JSON_of_formData iftar_form) in
  let out := Server.post_drive_save no_faults 1710158400500 body
               connected_server in
  List.length (Server.json_files (Server.drive (snd out))) = 1%nat /\
  forall now',
    List.length
      (Server.json_files
         (Server.drive
            (snd (Server.post_drive_save no_faults now' body (snd out)))))
    = 2%nat.
Proof.
  intros body out.
  apply (drive_export_creates_file no_faults 1710158400500
           (JSON_of_formData iftar_form) false connected_server);
    [discriminate | reflexivity | reflexivity | reflexivity].
Defined.

Lemma delete_of_absent_id_succeeds_witness :
  Server.post_events_delete no_faults (Server.JIdNum 7) caching_server =
    (Server.mkResponse 200 Server.SuccessBody, caching_server).
Proof.
  destruct (delete_of_absent_id_succeeds no_faults (Server.JIdNum 7)
              caching_server) as [H _].
  apply (H (Server.mkTable [cached_row] 1)); try reflexivity.
  intros r [<-|[]]. reflexivity.
Defined.

End Runs.

(* ================================================================== *)
(** ** Further properties of the server *)
(* ================================================================== *)

Section CacheFacts.

Import Server Cache.

Context {P : Platform}.

Lemma NoDup_map_filter (A C : Type) (f : A -> C) (p : A -> bool) (l : list A) :
  NoDup (map f l) -> NoDup (map f (filter p l)).
Proof.
  induction l as [|x l IH]; cbn; [auto|].
  intros H. inversion H as [|? ? Hx Hl]; subst.
  destruct (p x); cbn; [|auto]. constructor; [|auto].
  intros Hin. apply Hx. apply in_map_iff in Hin.
  destruct Hin as (y & Hy & Hin). apply in_map_iff. exists y.
  split; [exact Hy|]. apply filter_In in Hin. tauto.
Qed.

Lemma filter_idem (A : Type) (p : A -> bool) (l : list A) :
  filter p (filter p l) = filter p l.
Proof.
  apply filter_all. intros x Hx. apply filter_In in Hx. tauto.
Qed.

(** What a successful insert does to the table. *)
Lemma post_events_ok (fl : Faults) (now : Z) (event : EventData) (st : State)
  (t : Table) :
  db st = Some t -> stmt_fails fl = false ->
  post_events fl now event st =
    (mkResponse 200 (SuccessId (seq t + 1)),
     set_db (mkTable (rows t ++ [mkRow (seq t + 1) (insert_values now event)])
               (seq t + 1)) st).
Proof. intros Hd Hs. unfold post_events. rewrite Hd, Hs. reflexivity. Qed.

(** An insert answers 200 only when it ran. *)
Lemma post_events_200 (fl : Faults) (now : Z) (event : EventData) (st : State) :
  status (fst (post_events fl now event st)) = 200 ->
  exists t, db st = Some t /\ stmt_fails fl = false.
Proof.
  unfold post_events. destruct (db st) as [t|]; [|discriminate].
  destruct (stmt_fails fl); [discriminate|]. intros _. exists t. auto.
Qed.

Lemma post_events_delete_ok (fl : Faults) (i : JsonId) (st : State) (t : Table) :
  db st = Some t -> stmt_fails fl = false -> bindable i = true ->
  post_events_delete fl i st =
    (mkResponse 200 SuccessBody,
     set_db (mkTable (filter (fun r => negb (id_matches (row_id r) i)) (rows t))
               (seq t)) st).
Proof.
  intros Hd Hs Hb. unfold post_events_delete, run_delete.
  rewrite Hd, Hs, Hb. reflexivity.
Qed.

(** Either route leaves a table in place, and the delete route only
    removes rows. *)
Lemma post_events_delete_rows (fl : Faults) (i : JsonId) (st : State) (t : Table) :
  db st = Some t ->
  exists t', db (snd (post_events_delete fl i st)) = Some t' /\
             seq t' = seq t /\
             (rows t' = rows t \/
              rows t' = filter (fun r => negb (id_matches (row_id r) i)) (rows t)).
Proof.
  intros Hd. unfold post_events_delete, run_delete. rewrite Hd.
  destruct (stmt_fails fl || negb (bindable i)); cbn.
  - exists t. auto.
  - eexists. split; [reflexivity|]. cbn. auto.
Qed.

Lemma seq_is_new (t : Table) :
  ids_ok t -> ~ In (seq t + 1) (map row_id (rows t)).
Proof.
  intros [_ Hle] Hin. apply in_map_iff in Hin. destruct Hin as (r & Hr & Hin).
  apply Hle in Hin. lia.
Qed.

Lemma post_events_keeps_ids (fl : Faults) (now : Z) (event : EventData)
  (st : State) (t t' : Table) :
  db st = Some t -> ids_ok t ->
  db (snd (post_events fl now event st)) = Some t' -> ids_ok t'.
Proof.
  intros Hd Hi. pose proof (seq_is_new t Hi) as Hnew. destruct Hi as [Hnd Hle].
  unfold post_events. rewrite Hd. destruct (stmt_fails fl); cbn.
  - rewrite Hd. intros [= <-]. split; assumption.
  - intros [= <-]. split; cbn [rows seq].
    + rewrite map_app. apply NoDup_app; [exact Hnd | repeat constructor; auto |].
      intros a Ha [<-|[]]. cbn in Hnew. auto.
    + intros r Hr. apply in_app_or in Hr. destruct Hr as [Hr|[<-|[]]].
      * apply Hle in Hr. lia.
      * cbn. lia.
Qed.

Lemma post_events_delete_keeps_ids (fl : Faults) (i : JsonId) (st : State)
  (t t' : Table) :
  db st = Some t -> ids_ok t ->
  db (snd (post_events_delete fl i st)) = Some t' -> ids_ok t'.
Proof.
  intros Hd [Hnd Hle] Ht'.
  destruct (post_events_delete_rows fl i st t Hd) as (t2 & Ht2 & Hseq & Hrows).
  rewrite Ht2 in Ht'. injection Ht' as <-. unfold ids_ok. rewrite Hseq.
  destruct Hrows as [-> | ->]; [split; assumption|]. split.
  - apply NoDup_map_filter. exact Hnd.
  - intros r Hr. apply filter_In in Hr. apply Hle. tauto.
Qed.

Lemma or_null_no_empty (v : option string) : no_empty (or_null v).
Proof.
  unfold no_empty, or_null. destruct v as [[|c s]|]; cbn; congruence.
Qed.

Lemma insert_values_clean (now : Z) (event : EventData) :
  row_clean (insert_values now event).
Proof.
  unfold row_clean, insert_values. cbn -[toISOString or_null].
  repeat (split; [apply or_null_no_empty|]).
  destruct (or_null (e_created_at event)) as [s|] eqn:E.
  - exists s. split; [reflexivity|]. pose proof (or_null_no_empty (e_created_at event)) as H.
    rewrite E in H. unfold no_empty in H. congruence.
  - exists (toISOString now). split; [reflexivity|].
    apply truthy_iff, toISOString_truthy.
Qed.

Lemma post_events_keeps_clean (fl : Faults) (now : Z) (event : EventData)
  (st : State) (t t' : Table) :
  db st = Some t -> table_clean t ->
  db (snd (post_events fl now event st)) = Some t' -> table_clean t'.
Proof.
  intros Hd Hc. unfold post_events. rewrite Hd.
  destruct (stmt_fails fl); cbn -[insert_values].
  - rewrite Hd. intros [= <-]. exact Hc.
  - intros [= <-] r Hr. cbn -[insert_values] in Hr.
    apply in_app_or in Hr. destruct Hr as [Hr|[<-|[]]]; [auto|].
    apply insert_values_clean.
Qed.

Lemma post_events_delete_keeps_clean (fl : Faults) (i : JsonId) (st : State)
  (t t' : Table) :
  db st = Some t -> table_clean t ->
  db (snd (post_events_delete fl i st)) = Some t' -> table_clean t'.
Proof.
  intros Hd Hc Ht'.
  destruct (post_events_delete_rows fl i st t Hd) as (t2 & Ht2 & _ & Hrows).
  rewrite Ht2 in Ht'. injection Ht' as <-. intros r Hr.
  destruct Hrows as [H|H]; rewrite H in Hr; [auto|].
  apply filter_In in Hr. apply Hc. tauto.
Qed.

(** X3. [GET /api/events] answers with every row of the table exactly
    once (a permutation of the rows), and right after a successful
    [POST /api/events] the list holds the inserted row under the returned
    identifier and is one longer than the table was. *)
Theorem cache_insert_then_list (fl : Faults) (now : Z) (event : EventData)
  (st : State) (t : Table) :
  db st = Some t -> stmt_fails fl = false ->
  exists l l',
    get_events fl st = mkResponse 200 (EventsBody l) /\
    Permutation l (rows t) /\
    get_events fl (snd (post_events fl now event st)) =
      mkResponse 200 (EventsBody l') /\
    Permutation l' (rows t ++ [mkRow (seq t + 1) (insert_values now event)]) /\
    fst (post_events fl now event st) = mkResponse 200 (SuccessId (seq t + 1)) /\
    In (mkRow (seq t + 1) (insert_values now event)) l' /\
    List.length l' = S (List.length (rows t)).
Proof.
  intros Hd Hs. rewrite (post_events_ok fl now event st t Hd Hs).
  unfold get_events. cbn -[insert_values select_events]. rewrite Hd, Hs.
  eexists. eexists. split; [reflexivity|].
  split; [symmetry; apply stable_sort_perm|].
  split; [reflexivity|].
  assert (Hp : Permutation
                 (select_events
                    (mkTable (rows t ++ [mkRow (seq t + 1) (insert_values now event)])
                       (seq t + 1)))
                 (rows t ++ [mkRow (seq t + 1) (insert_values now event)]))
    by (symmetry; apply stable_sort_perm).
  split; [exact Hp|]. split; [reflexivity|]. split.
  - apply (Permutation_in _ (Permutation_sym Hp)).
    apply in_or_app. right. left. reflexivity.
  - rewrite (Permutation_length Hp), length_app. cbn. lia.
Qed.

(** X4. Deleting the identifier an insert has just returned gives back
    the rows the table had before the insert (only the counter has moved
    on), provided the identifiers were in order. *)
Theorem cache_insert_then_delete (fl : Faults) (now : Z) (event : EventData)
  (st : State) (t : Table) :
  db st = Some t -> stmt_fails fl = false -> ids_ok t ->
  let st1 := snd (post_events fl now event st) in
  let st2 := snd (post_events_delete fl (JIdNum (seq t + 1)) st1) in
  fst (post_events_delete fl (JIdNum (seq t + 1)) st1) =
    mkResponse 200 SuccessBody /\
  db st2 = Some (mkTable (rows t) (seq t + 1)).
Proof.
  intros Hd Hs [_ Hle]. cbn zeta.
  rewrite (post_events_ok fl now event st t Hd Hs). cbn [snd].
  erewrite post_events_delete_ok; [|reflexivity|exact Hs|reflexivity].
  split; [reflexivity|]. cbn -[insert_values]. f_equal. f_equal.
  rewrite filter_app. cbn -[insert_values]. rewrite Z.eqb_refl. cbn.
  rewrite app_nil_r. apply filter_all. intros r Hr. apply Hle in Hr.
  apply negb_true_iff, Z.eqb_neq. lia.
Qed.

(** X5. A delete that runs removes exactly the rows whose identifier
    equals the given number and keeps the others in their order; repeating
    it changes nothing and still answers success. *)
Theorem cache_delete_exact_and_idempotent (fl : Faults) (n : Z) (st : State)
  (t : Table) :
  db st = Some t -> stmt_fails fl = false ->
  let st' := snd (post_events_delete fl (JIdNum n) st) in
  rows_of st' = filter (fun r => negb (row_id r =? n)) (rows t) /\
  (forall r, In r (rows_of st') <-> In r (rows t) /\ row_id r <> n) /\
  post_events_delete fl (JIdNum n) st' = (mkResponse 200 SuccessBody, st').
Proof.
  intros Hd Hs. cbn zeta.
  rewrite (post_events_delete_ok fl (JIdNum n) st t Hd Hs eq_refl).
  cbn [snd]. unfold rows_of. cbn [db set_db rows id_matches bound_parameter id_equals].
  split; [reflexivity|]. split.
  - intros r. rewrite filter_In, negb_true_iff, Z.eqb_neq. tauto.
  - erewrite post_events_delete_ok; [|reflexivity|exact Hs|reflexivity].
    cbn [rows seq id_matches bound_parameter id_equals]. rewrite filter_idem. reflexivity.
Qed.

End CacheFacts.

Section RouteFacts.

Import Server Cache Routes.

Context {P : Platform}.

Lemma post_drive_save_db (fl : Faults) (now : Z) (body : DriveBody)
  (st : State) :
  db (snd (post_drive_save fl now body st)) = db st /\
  tokens (snd (post_drive_save fl now body st)) = tokens st.
Proof.
  unfold post_drive_save, create_event_file.
  repeat (break_match; cbn [drive log_call]); cbn; auto.
Qed.

(** What one request can do to the table and to the tokens. *)
Lemma serve_step (a : Arrival) (st : State) :
  (tokens st <> None -> tokens (snd (serve a st)) <> None) /\
  (forall t, db st = Some t ->
     exists t', db (snd (serve a st)) = Some t' /\
       (ids_ok t -> ids_ok t') /\ (table_clean t -> table_clean t')) /\
  (db st = None -> db (snd (serve a st)) = None).
Proof.
  unfold serve. destruct (a_request a) as [[tk|]| | |event|i|ed]; cbn [snd].
  - cbn. split; [auto|]. split; [|auto]. intros t Ht. exists t. auto.
  - cbn. split; [auto|]. split; [|auto]. intros t Ht. exists t. auto.
  - split; [auto|]. split; [|auto]. intros t Ht. exists t. auto.
  - split; [auto|]. split; [|auto]. intros t Ht. exists t. auto.
  - split; [|split].
    + unfold post_events. destruct (db st); [destruct (stmt_fails _)|]; auto.
    + intros t Ht.
      assert (He : exists t', db (snd (post_events (a_faults a) (a_now a) event st)) = Some t').
      { unfold post_events. rewrite Ht. destruct (stmt_fails _); cbn; eauto. }
      destruct He as [t' Ht']. exists t'. split; [exact Ht'|]. split; intros Hi.
      * exact (post_events_keeps_ids _ _ _ _ _ _ Ht Hi Ht').
      * exact (post_events_keeps_clean _ _ _ _ _ _ Ht Hi Ht').
    + unfold post_events. intros H. rewrite H. exact H.
  - split; [|split].
    + unfold post_events_delete.
      destruct (db st); [destruct (run_delete _ _ _)|]; auto.
    + intros t Ht.
      destruct (post_events_delete_rows (a_faults a) i st t Ht) as (t' & Ht' & _).
      exists t'. split; [exact Ht'|]. split; intros Hi.
      * exact (post_events_delete_keeps_ids _ _ _ _ _ Ht Hi Ht').
      * exact (post_events_delete_keeps_clean _ _ _ _ _ Ht Hi Ht').
    + unfold post_events_delete. intros H. rewrite H. exact H.
  - destruct (post_drive_save_db (a_faults a) (a_now a) ed st) as [Hd Ht].
    rewrite Hd, Ht. split; [auto|]. split; [|auto]. intros t Hdb. exists t. auto.
Qed.

Lemma run_steps (arrivals : list Arrival) (st : State) :
  (tokens st <> None -> tokens (snd (run arrivals st)) <> None) /\
  (forall t, db st = Some t ->
     exists t', db (snd (run arrivals st)) = Some t' /\
       (ids_ok t -> ids_ok t') /\ (table_clean t -> table_clean t')) /\
  (db st = None -> db (snd (run arrivals st)) = None).
Proof.
  revert st. induction arrivals as [|a rest IH]; intros st; cbn [run].
  - split; [auto|]. split; [|auto]. intros t Ht. exists t. auto.
  - destruct (serve_step a st) as (Hk & Hd & Hn).
    destruct (serve a st) as [r st1]. cbn [snd] in *.
    destruct (IH st1) as (Hk' & Hd' & Hn').
    destruct (run rest st1) as [rs st2]. cbn [snd] in *.
    split; [auto|]. split; [|auto]. intros t Ht.
    destruct (Hd t Ht) as (t1 & Ht1 & Hi1 & Hc1).
    destruct (Hd' t1 Ht1) as (t2 & Ht2 & Hi2 & Hc2).
    exists t2. auto.
Qed.

(** X1. Whatever requests arrive, the identifiers of the local cache stay
    pairwise different (and below the AUTOINCREMENT counter); and the
    identifier a successful insert returns is one no row had. *)
Theorem cache_ids_stay_distinct (arrivals : list Arrival) (st : State)
  (t : Table) :
  db st = Some t -> ids_ok t ->
  (exists t', db (snd (run arrivals st)) = Some t' /\ ids_ok t') /\
  (forall fl now event n,
     fst (post_events fl now event st) = mkResponse 200 (SuccessId n) ->
     ~ In n (map row_id (rows t)) /\
     In (mkRow n (insert_values now event))
        (rows_of (snd (post_events fl now event st)))).
Proof.
  intros Hd Hi. split.
  - destruct (run_steps arrivals st) as (_ & H & _).
    destruct (H t Hd) as (t' & Ht' & Hi' & _). exists t'. auto.
  - intros fl now event n Hn. pose proof (f_equal status Hn) as Hst.
    cbn in Hst. apply post_events_200 in Hst. destruct Hst as (t2 & Ht2 & Hs).
    rewrite Hd in Ht2. injection Ht2 as <-.
    rewrite (post_events_ok fl now event st t Hd Hs) in Hn |- *. cbn in Hn.
    injection Hn as <-. split; [apply seq_is_new; exact Hi|].
    unfold rows_of. cbn. apply in_or_app. right. left. reflexivity.
Qed.

(** X2. For a body typed as the [Event] interface (texts in the text
    fields, numbers in [lat] and [lng], any of them missing or [null]),
    the row [POST /api/events] writes has no empty text in any of its
    sixteen text columns (an empty or missing text is NULL) and has a
    [created_at]; the two coordinates are bound as they come.  So a table
    whose text columns are all like that stays like that, whatever such
    requests arrive. *)
Theorem cache_rows_stay_clean (arrivals : list Arrival) (st : State)
  (t : Table) :
  db st = Some t -> table_clean t ->
  (forall now event,
     row_clean (insert_values now event) /\
     e_lat (insert_values now event) = e_lat event /\
     e_lng (insert_values now event) = e_lng event) /\
  exists t', db (snd (run arrivals st)) = Some t' /\ table_clean t'.
Proof.
  intros Hd Hc.
  split; [intros; split; [apply insert_values_clean | split; reflexivity]|].
  destruct (run_steps arrivals st) as (_ & H & _).
  destruct (H t Hd) as (t' & Ht' & _ & Hc'). exists t'. auto.
Qed.

(** X6. A session that holds tokens keeps them whatever requests arrive:
    no route clears them, so from then on [POST /api/drive/save] never
    answers 401 again; a Drive failure is answered with 500. *)
Theorem session_stays_connected (arrivals : list Arrival) (st : State) :
  tokens st <> None ->
  let st' := snd (run arrivals st) in
  tokens st' <> None /\
  body (auth_status st') = ConnectedBody true /\
  forall fl now body,
    status (fst (post_drive_save fl now body st')) = 200 \/
    fst (post_drive_save fl now body st') =
      mkResponse 500 (ErrorBody "Failed to save to Drive").
Proof.
  intros Ht. cbn zeta. destruct (run_steps arrivals st) as (Hk & _).
  specialize (Hk Ht). split; [exact Hk|].
  unfold auth_status, post_drive_save, create_event_file.
  destruct (tokens (snd (run arrivals st))) as [tk|]; [|congruence].
  split; [reflexivity|]. intros fl now ed.
  repeat (break_match; cbn [drive log_call]); cbn; auto.
Qed.

Lemma serve_unconnected (a : Arrival) (st : State) :
  tokens st = None -> grants a = false ->
  tokens (snd (serve a st)) = None /\
  drive (snd (serve a st)) = drive st /\
  drive_calls (snd (serve a st)) = drive_calls st /\
  (forall ed, a_request a = POST_drive_save ed ->
     fst (serve a st) =
       mkResponse 401 (ErrorBody "Not connected to Google Drive")).
Proof.
  intros Ht Hg. unfold serve, grants in *.
  destruct (a_request a) as [[tk|]| | |event|i|ed]; cbn [snd fst];
    try discriminate.
  - cbn. repeat split; auto; discriminate.
  - repeat split; auto; discriminate.
  - repeat split; auto; discriminate.
  - unfold post_events. destruct (db st); [destruct (stmt_fails _)|];
      cbn; repeat split; auto; discriminate.
  - unfold post_events_delete.
    destruct (db st); [destruct (run_delete _ _ _)|];
      cbn; repeat split; auto; discriminate.
  - unfold post_drive_save. rewrite Ht. cbn. repeat split; auto.
Qed.

(** X7. Until a callback has exchanged a code for tokens, no request
    reaches Google Drive: the session stays without tokens, Drive is what
    it was and no Drive request has been made, and every
    [POST /api/drive/save] among the requests was answered 401. *)
Theorem unconnected_session_never_reaches_drive (arrivals : list Arrival)
  (st : State) :
  tokens st = None ->
  forallb (fun a => negb (grants a)) arrivals = true ->
  let out := run arrivals st in
  tokens (snd out) = None /\
  drive (snd out) = drive st /\
  drive_calls (snd out) = drive_calls st /\
  List.length (fst out) = List.length arrivals /\
  forall k a r ed,
    nth_error arrivals k = Some a -> nth_error (fst out) k = Some r ->
    a_request a = POST_drive_save ed ->
    r = mkResponse 401 (ErrorBody "Not connected to Google Drive").
Proof.
  revert st. induction arrivals as [|a rest IH]; intros st Ht Hg; cbn zeta.
  - cbn. repeat split; auto. intros [|k] ? ? ? H; discriminate.
  - cbn [forallb] in Hg. apply andb_true_iff in Hg. destruct Hg as [Ha Hg].
    apply negb_true_iff in Ha.
    destruct (serve_unconnected a st Ht Ha) as (Ht1 & Hd1 & Hc1 & Hr1).
    cbn [run]. destruct (serve a st) as [r st1]. cbn [snd fst] in *.
    specialize (IH st1 Ht1 Hg). cbn zeta in IH.
    destruct (run rest st1) as [rs st2]. cbn [snd fst] in *.
    destruct IH as (Ht2 & Hd2 & Hc2 & Hl2 & Hr2).
    repeat split; try congruence.
    + cbn. congruence.
    + intros [|k] a' r' ed; cbn [nth_error].
      * intros [= <-] [= <-]. apply Hr1.
      * apply Hr2.
Qed.

End RouteFacts.

Section DriveFacts.

Import Server.

Lemma list_folders_app (a b : list DriveFile) :
  list_folders (a ++ b) = list_folders a ++ list_folders b.
Proof. apply filter_app. Qed.

Lemma list_folders_file (i : nat) (n : string) (p : list nat)
  (b : option JsonText) (t : bool) :
  list_folders [mkDriveFile i n json_mimeType p b t] = [].
Proof.
  unfold list_folders. cbn [filter file_name file_mimeType file_trashed].
  destruct (String.eqb n folder_name); reflexivity.
Qed.

(** Everything [POST /api/drive/save] can do to the Drive: nothing, a new
    folder, a new file, or both. *)
Lemma drive_save_shapes (fl : Faults) (now : Z) (body : DriveBody)
  (st : State) :
  let out := post_drive_save fl now body st in
  let folder := mkDriveFile (fresh_id (drive st)) folder_name folder_mimeType
                  [] None false in
  (status (fst out) <> 200 /\
   (drive (snd out) = drive st \/
    list_folders (drive st) = [] /\ drive (snd out) = drive st ++ [folder]))
  \/
  (exists ed fileId parent,
     status (fst out) = 200 /\ eventData body = Some ed /\
     let file := mkDriveFile fileId (export_file_name (name_is_null body) ed now) json_mimeType
                   [parent] (Some (mkJsonText 2 ed)) false in
     (list_folders (drive st) <> [] /\ drive (snd out) = drive st ++ [file] \/
      list_folders (drive st) = [] /\
      drive (snd out) = drive st ++ [folder; file])).
Proof.
  cbn zeta. unfold post_drive_save, create_event_file.
  destruct (tokens st); [|left; split; [discriminate | auto]].
  destruct (files_list_fails fl); [left; split; [discriminate | auto]|].
  cbn [drive log_call].
  destruct (list_folders (drive st)) as [|g gs] eqn:Eg.
  - destruct (folder_create_fails fl); [left; split; [discriminate | auto]|].
    destruct (eventData body) as [ed|];
      [|left; split; [discriminate | right; split; reflexivity]].
    destruct (file_create_fails fl);
      [left; split; [discriminate | right; split; reflexivity]|].
    right. eexists. eexists. eexists. split; [reflexivity|].
    split; [reflexivity|]. right. split; [reflexivity|].
    cbn. rewrite <- app_assoc. reflexivity.
  - destruct (eventData body) as [ed|]; [|left; split; [discriminate | auto]].
    destruct (file_create_fails fl); [left; split; [discriminate | auto]|].
    right. eexists. eexists. eexists. split; [reflexivity|].
    split; [reflexivity|]. left. split; [discriminate | reflexivity].
Qed.

(** X8. An export that is not answered 200 leaves no event file behind:
    the exported files of the Drive are what they were.  It can leave the
    folder behind: when none was listed, the folder is created before the
    file is named, so a request without [eventData], or a failing file
    creation, ends in a 500 with the new, empty folder in place. *)
Theorem failed_export_leaves_no_file (fl : Faults) (now : Z)
  (body : DriveBody) (st : State) :
  let out := post_drive_save fl now body st in
  (status (fst out) <> 200 ->
   json_files (drive (snd out)) = json_files (drive st) /\
   (drive (snd out) = drive st \/
    list_folders (drive st) = [] /\
    drive (snd out) =
      drive st ++ [mkDriveFile (fresh_id (drive st)) folder_name
                     folder_mimeType [] None false])) /\
  (tokens st <> None -> files_list_fails fl = false ->
   folder_create_fails fl = false -> list_folders (drive st) = [] ->
   eventData body = None \/ file_create_fails fl = true ->
   fst out = mkResponse 500 (ErrorBody "Failed to save to Drive") /\
   drive (snd out) =
     drive st ++ [mkDriveFile (fresh_id (drive st)) folder_name
                    folder_mimeType [] None false]).
Proof.
  cbn zeta. split.
  - intros Hs. destruct (drive_save_shapes fl now body st) as [[_ H]|H];
      cbn zeta in H.
    + split; [|exact H]. destruct H as [-> | [_ ->]]; [reflexivity|].
      unfold json_files. rewrite filter_app. cbn. apply app_nil_r.
    + destruct H as (ed & fileId & parent & H200 & _). congruence.
  - intros Ht Hl Hf Hn He. unfold post_drive_save, create_event_file.
    destruct (tokens st); [|congruence]. rewrite Hl.
    cbn [drive log_call]. rewrite Hn, Hf. cbn [drive log_call add_file].
    destruct He as [-> | He]; [split; reflexivity|].
    destruct (eventData body); [rewrite He|]; split; reflexivity.
Qed.

(** X9. Exports do not multiply the folder: when Drive lists a folder
    named 'Iftar Shondhane', a request creates none, whatever else
    happens; when it lists none, a request leaves at most one, and exactly
    one if it is answered 200. *)
Theorem export_folder_not_duplicated (fl : Faults) (now : Z)
  (body : DriveBody) (st : State) :
  let out := post_drive_save fl now body st in
  (list_folders (drive st) <> [] ->
   list_folders (drive (snd out)) = list_folders (drive st)) /\
  (list_folders (drive st) = [] ->
   (List.length (list_folders (drive (snd out))) <= 1)%nat /\
   (status (fst out) = 200 ->
    List.length (list_folders (drive (snd out))) = 1%nat)).
Proof.
  cbn zeta.
  destruct (drive_save_shapes fl now body st) as [[Hs H]|H];
    cbn zeta in H.
  - split.
    + intros Hne. destruct H as [-> | [He _]]; [reflexivity | congruence].
    + intros He. split; [|congruence].
      destruct H as [-> | [_ ->]]; [rewrite He; cbn; lia|].
      rewrite list_folders_app, He. cbn. lia.
  - destruct H as (ed & fileId & parent & H200 & _ & [[Hne ->] | [He ->]]).
    + split; [|congruence]. intros _.
      rewrite list_folders_app, list_folders_file. apply app_nil_r.
    + split; [congruence|]. intros _.
      change [mkDriveFile (fresh_id (drive st)) folder_name folder_mimeType []
                None false;
              mkDriveFile fileId (export_file_name (name_is_null body) ed now) json_mimeType
                [parent] (Some (mkJsonText 2 ed)) false]
        with ([mkDriveFile (fresh_id (drive st)) folder_name folder_mimeType []
                 None false] ++
              [mkDriveFile fileId (export_file_name (name_is_null body) ed now) json_mimeType
                 [parent] (Some (mkJsonText 2 ed)) false]).
      rewrite !list_folders_app, list_folders_file, He. cbn.
      split; [lia | reflexivity].
Qed.

End DriveFacts.

(* ================================================================== *)
(** ** Further properties of the client *)
(* ================================================================== *)

Section MoreClientFacts.

Import Connection.

Context {P : Platform} {B : Backends}.

Lemma fetchEvents_loading (w : World) :
  loading (app (snd (fetchEvents w))) = false.
Proof.
  unfold fetchEvents. unfold_M. cbn.
  repeat (break_match; cbn); reflexivity.
Qed.

(** X10. [fetchEvents] never throws and never shows an alert, and it
    always ends with the loading flag off.  When the Supabase query errors
    and Firestore rejects as well, or when Supabase answers without error
    and without data, the list on screen stays what it was. *)
Theorem read_failures_are_silent (w : World) :
  let q := build_query (filters (app w)) in
  let w' := snd (fetchEvents w) in
  fst (fetchEvents w) = Ok tt /\
  alerts w' = alerts w /\
  loading (app w') = false /\
  (select_failed (fst (supabase_select q (supabase w))) = true ->
   forall e, fst (getDocs (firestore w)) = Rejected e ->
   events (app w') = events (app w)) /\
  (forall err, fst (supabase_select q (supabase w)) =
                 Resolved (mkSelectResult None err) ->
   err = None -> events (app w') = events (app w)).
Proof.
  cbn zeta. destruct (fetchEvents_frame w) as [Hok Hf].
  split; [exact Hok|]. split; [apply Hf|]. split; [apply fetchEvents_loading|].
  pose proof (fetchEvents_run w) as H. cbn zeta in H. split.
  - intros Hs e He. rewrite Hs, He in H. apply H.
  - intros err Hr ->. rewrite Hr in H. cbn in H. apply H.
Qed.

(** X11. The fallback lists every document of the snapshot that passes
    the filters, once: its result is a permutation of the passing
    documents, so a document that satisfies every active filter does
    appear, and with no filter set every document appears. *)
Theorem fallback_lists_every_match (f : Filters) (snapshot : list Doc) :
  Permutation (fallback_events f snapshot)
    (map event_of_doc (filter (fun d => matches f (doc_data d)) snapshot)) /\
  (forall d, In d snapshot ->
     (f_district f <> EmptyString -> e_district (doc_data d) = Some (f_district f)) ->
     (f_type f <> EmptyString -> e_type (doc_data d) = Some (f_type f)) ->
     (f_upazila f <> EmptyString ->
        contains_ignoring_case (e_upazila (doc_data d)) (f_upazila f)) ->
     (f_village f <> EmptyString ->
        contains_ignoring_case (e_village (doc_data d)) (f_village f)) ->
     In (event_of_doc d) (fallback_events f snapshot)) /\
  (f_district f = EmptyString -> f_type f = EmptyString ->
   f_upazila f = EmptyString -> f_village f = EmptyString ->
   Permutation (fallback_events f snapshot) (map event_of_doc snapshot)).
Proof.
  split; [symmetry; apply stable_sort_perm|]. split.
  - intros d Hd H1 H2 H3 H4. apply fallback_events_In. exists d.
    split; [exact Hd|]. split; [|reflexivity]. apply matches_iff. tauto.
  - intros H1 H2 H3 H4. unfold fallback_events, Array_sort.
    rewrite <- stable_sort_perm. rewrite filter_all; [reflexivity|].
    intros d _. apply matches_iff. rewrite H1, H2, H3, H4.
    repeat split; congruence.
Qed.

(** X12. Unsetting filters never hides an event: whatever the fallback
    lists under [f] it also lists under filters that ask for no more. *)
Theorem relaxing_filters_keeps_events (f f' : Filters) (snapshot : list Doc)
  (e : Event) :
  filters_relaxed f' f ->
  In e (fallback_events f snapshot) -> In e (fallback_events f' snapshot).
Proof.
  intros (R1 & R2 & R3 & R4) Hin. apply fallback_events_In in Hin.
  destruct Hin as (d & Hd & Hm & ->). apply fallback_events_In. exists d.
  split; [exact Hd|]. split; [|reflexivity].
  apply matches_iff in Hm. destruct Hm as (M1 & M2 & M3 & M4).
  apply matches_iff. repeat split; intros Hne.
  - destruct R1 as [R|R]; [congruence|]. rewrite R in *. auto.
  - destruct R2 as [R|R]; [congruence|]. rewrite R in *. auto.
  - destruct R3 as [R|R]; [congruence|]. rewrite R in *. auto.
  - destruct R4 as [R|R]; [congruence|]. rewrite R in *. auto.
Qed.

Lemma stable_sort_already (A : Type) (before : A -> A -> bool) (l : list A) :
  (forall x y, In x l -> In y l -> before x y = true) ->
  stable_sort before l = l.
Proof.
  induction l as [|x l IH]; [reflexivity|]. intros H.
  change (stable_sort before (x :: l))
    with (insert_by before x (stable_sort before l)).
  rewrite IH by (intros; apply H; right; assumption).
  destruct l as [|y l]; [reflexivity|]. cbn.
  rewrite H; [reflexivity | left; reflexivity | right; left; reflexivity].
Qed.

(** X13. The sort of the fallback is stable: documents whose dates are
    all the same -- in particular documents that all lack [created_at] --
    are listed in the order of the snapshot. *)
Theorem equal_dates_keep_snapshot_order (f : Filters) (snapshot : list Doc) :
  (forall d d', In d snapshot -> In d' snapshot ->
     date_of (event_of_doc d) = date_of (event_of_doc d')) ->
  fallback_events f snapshot =
    map event_of_doc (filter (fun d => matches f (doc_data d)) snapshot).
Proof.
  intros Heq. unfold fallback_events, Array_sort. apply stable_sort_already.
  intros x y Hx Hy. apply in_map_iff in Hx, Hy.
  destruct Hx as (d & <- & Hd). destruct Hy as (d' & <- & Hd').
  apply filter_In in Hd, Hd'. unfold by_date_desc.
  rewrite (Heq d d') by tauto.
  destruct (date_of (event_of_doc d')); cbn; [|reflexivity].
  apply Z.leb_le. lia.
Qed.

(** X14. A second submission while one is under way does nothing at
    all; and a submission that starts never throws and always switches
    [isSubmitting] off again, whether Supabase accepted it or not. *)
Theorem submit_guard_and_release (env : Env) (w : World) :
  (isSubmitting (app w) = true -> handleSubmit env w = (Ok tt, w)) /\
  (isSubmitting (app w) = false ->
   fst (handleSubmit env w) = Ok tt /\
   isSubmitting (app (snd (handleSubmit env w))) = false).
Proof.
  split.
  - intros Hs. unfold handleSubmit, bind, get_app, ret. rewrite Hs. reflexivity.
  - intros Hs. destruct (handleSubmit_run env w Hs) as [Hok H].
    cbn zeta in H. split; [exact Hok|].
    destruct (error_of _).
    + destruct H as (_ & _ & _ & _ & ->). exact Hs.
    + tauto.
Qed.

Ltac forget_refresh :=
  match goal with
  | |- context [fetchEvents ?w0] =>
      let F := fresh "F" in let C := fresh "C" in let R := fresh "R" in
      destruct (fetchEvents_frame w0) as [_ F];
      destruct (fetchEvents_calls w0) as [? [C R]];
      unfold same_but_list in F; step;
      destruct F as (? & ? & ? & ? & ? & ? & ? & ?);
      generalize dependent (fetchEvents w0); intros
  end.

(** The server after a submission that Supabase accepted. *)
Lemma handleSubmit_server (env : Env) (w : World) :
  isSubmitting (app w) = false ->
  let f := formData (app w) in
  let newEvent := mkNewEvent f (toISOString (client_now env)) in
  error_of (fst (supabase_insert newEvent (supabase w))) = None ->
  let s1 := if net_post_events env
            then snd (Server.post_events (faults env) (server_now env)
                        (JSON_of_newEvent newEvent) (server w))
            else server w in
  let s2 := if isGoogleConnected (app w) && net_post_drive_save env
            then snd (Server.post_drive_save (faults env) (server_now env)
                        (drive_body (JSON_of_formData f)) s1)
            else s1 in
  let w' := snd (handleSubmit env w) in
  server w' = s2 /\ isGoogleConnected (app w') = isGoogleConnected (app w).
Proof.
  intros Hs. cbn zeta. unfold handleSubmit. unfold_M. rewrite Hs. step.
  destruct (supabase_insert _ (supabase w)) as [[[e|]|e] s]; step;
    try discriminate.
  intros _.
  repeat (break_match; step); forget_refresh; step;
    repeat match goal with
           | H : _ = (_, _) |- _ => rewrite H
           end; cbn [snd andb]; split; congruence.
Qed.

(** X15. A submission that Supabase accepted sends, in this order, the
    insert, the Firestore backup, the local-cache request and -- exactly
    when the Drive flag is on -- the Drive export, and then only the reads
    of the refresh; it leaves the Drive flag as it was, also when the
    server answered the export with 401. *)
Theorem accepted_submission_request_order (env : Env) (w : World) :
  isSubmitting (app w) = false ->
  let f := formData (app w) in
  let newEvent := mkNewEvent f (toISOString (client_now env)) in
  error_of (fst (supabase_insert newEvent (supabase w))) = None ->
  let w' := snd (handleSubmit env w) in
  (exists reads,
     calls w' = calls w ++
       [call_supabase_insert newEvent; call_addDoc newEvent;
        call_post_events (JSON_of_newEvent newEvent)] ++
       (if isGoogleConnected (app w)
        then [call_post_drive_save (JSON_of_formData f)] else []) ++ reads /\
     forall c, In c reads -> is_read (build_query (filters (app w))) c) /\
  isGoogleConnected (app w') = isGoogleConnected (app w).
Proof.
  intros Hs. cbn zeta. intros He.
  destruct (handleSubmit_run env w Hs) as [_ H]. cbn zeta in H.
  rewrite He in H. split; [tauto|].
  apply (handleSubmit_server env w Hs He).
Qed.

(** X16. A submission that Supabase accepted and that reaches a server
    with an open database adds exactly one row to the local cache: the
    form's values under the client's [created_at], with the next
    identifier.  When the server is not reached the cache is what it was. *)
Theorem accepted_submission_caches_one_row (env : Env) (w : World)
  (t : Server.Table) :
  isSubmitting (app w) = false ->
  let f := formData (app w) in
  let newEvent := mkNewEvent f (toISOString (client_now env)) in
  error_of (fst (supabase_insert newEvent (supabase w))) = None ->
  Server.db (server w) = Some t ->
  let w' := snd (handleSubmit env w) in
  (net_post_events env = true -> Server.stmt_fails (faults env) = false ->
   Server.db (server w') =
     Some (Server.mkTable
             (Server.rows t ++
                [Server.mkRow (Server.seq t + 1)
                   (row_of_form f (toISOString (client_now env)))])
             (Server.seq t + 1))) /\
  (net_post_events env = false -> Server.db (server w') = Some t).
Proof.
  intros Hs. cbn zeta. intros He Hd.
  destruct (handleSubmit_server env w Hs He) as [Hsrv _]. cbn zeta in Hsrv.
  rewrite Hsrv. split.
  - intros Hn Hf. rewrite Hn.
    rewrite (post_events_ok _ _ _ _ t Hd Hf). cbn [snd].
    rewrite insert_values_of_form.
    destruct (isGoogleConnected (app w) && net_post_drive_save env);
      [rewrite (proj1 (post_drive_save_db _ _ _ _))|]; reflexivity.
  - intros Hn. rewrite Hn.
    destruct (isGoogleConnected (app w) && net_post_drive_save env);
      [rewrite (proj1 (post_drive_save_db _ _ _ _))|]; exact Hd.
Qed.

End MoreClientFacts.

Section DeleteAndInputFacts.

Import Connection.

Context {P : Platform} {B : Backends}.

Ltac forget_refresh' :=
  match goal with
  | |- context [fetchEvents ?w0] =>
      let F := fresh "F" in let C := fresh "C" in let R := fresh "R" in
      destruct (fetchEvents_frame w0) as [_ F];
      destruct (fetchEvents_calls w0) as [? [C R]];
      unfold same_but_list in F; step;
      destruct F as (? & ? & ? & ? & ? & ? & ? & ?);
      generalize dependent (fetchEvents w0); intros
  end.

(** A delete that is not confirmed, or whose password is wrong, sends
    nothing. *)
Lemma deleteEvent_not_started (password : option string) (confirmed : bool)
  (env : Env) (i : EventId) (w : World) :
  password <> Some delete_password \/ confirmed = false ->
  let w' := snd (deleteEvent password confirmed env i w) in
  calls w' = calls w /\ supabase w' = supabase w /\
  firestore w' = firestore w /\ server w' = server w /\ app w' = app w.
Proof.
  intros H. cbn zeta. unfold deleteEvent.
  destruct password as [p|]; cbn; [|repeat split; reflexivity].
  destruct (String.eqb_spec p delete_password) as [->|Hne]; cbn;
    [|repeat split; reflexivity].
  destruct H as [H| ->]; [congruence|]. cbn. repeat split; reflexivity.
Qed.

(** The server after a delete that went ahead and that Supabase did. *)
Lemma deleteEvent_server (env : Env) (i : EventId) (w : World) :
  error_of (fst (supabase_delete i (supabase w))) = None ->
  let w' := snd (deleteEvent (Some delete_password) true env i w) in
  server w' =
    if net_post_events_delete env
    then snd (Server.post_events_delete (faults env) (json_id i) (server w))
    else server w.
Proof.
  cbn zeta. unfold deleteEvent. unfold_M. step.
  destruct (supabase_delete i (supabase w)) as [[[e|]|e] s]; step;
    try discriminate.
  intros _.
  destruct i; repeat (break_match; step); try forget_refresh'; step;
    repeat match goal with
           | H : _ = (_, _) |- _ => rewrite H
           end; cbn [snd]; congruence.
Qed.

(** X17. Deleting an event whose identifier is a number never asks
    Firestore to delete anything, whatever is typed and whatever the
    stores answer; and when the confirmation is declined no request is
    sent at all and nothing changes. *)
Theorem numeric_id_leaves_firestore_copy (password : option string)
  (confirmed : bool) (env : Env) (n : Z) (i : EventId) (w : World) :
  (exists sent,
     calls (snd (deleteEvent password confirmed env (IdNum n) w)) =
       calls w ++ sent /\
     forall s, ~ In (call_deleteDoc s) sent) /\
  (let w' := snd (deleteEvent password false env i w) in
   calls w' = calls w /\ supabase w' = supabase w /\
   firestore w' = firestore w /\ server w' = server w /\
   events (app w') = events (app w)).
Proof.
  split.
  - destruct password as [p|].
    + destruct (String.eqb_spec p delete_password) as [->|Hne].
      * destruct confirmed.
        -- pose proof (deleteEvent_run env (IdNum n) w) as H. cbn zeta in H.
           destruct (error_of _).
           ++ destruct H as (_ & Hc & _). eexists. split; [exact Hc|].
              intros s [Hin|[]]. discriminate.
           ++ destruct H as (reads & Hc & Hr & _). eexists.
              split; [exact Hc|]. intros s Hin. cbn in Hin.
              destruct Hin as [Hin|[Hin|Hin]]; try discriminate.
              apply Hr in Hin. destruct Hin; discriminate.
        -- exists []. rewrite app_nil_r. split; [|intros s []].
           apply deleteEvent_not_started. auto.
      * exists []. rewrite app_nil_r. split; [|intros s []].
        apply deleteEvent_not_started. left. congruence.
    + exists []. rewrite app_nil_r. split; [|intros s []].
      apply deleteEvent_not_started. left. discriminate.
  - cbn zeta.
    destruct (deleteEvent_not_started password false env i w (or_intror eq_refl))
      as (H1 & H2 & H3 & H4 & H5).
    cbn zeta in H5. rewrite H5. auto.
Qed.

(** X18. A delete that went ahead, that Supabase did and whose request
    reached the server tells the user nothing, whatever the server
    answered -- an uninitialized database or a failing statement (a 500)
    passes unnoticed -- and when the statement ran, the local cache has
    lost exactly the rows with that number. *)
Theorem accepted_delete_reaches_cache (env : Env) (n : Z) (w : World)
  (t : Server.Table) :
  error_of (fst (supabase_delete (IdNum n) (supabase w))) = None ->
  net_post_events_delete env = true ->
  let w' := snd (deleteEvent (Some delete_password) true env (IdNum n) w) in
  alerts w' = alerts w /\
  (Server.db (server w) = None -> Server.db (server w') = None) /\
  (Server.db (server w) = Some t ->
   (Server.stmt_fails (faults env) = true -> Server.db (server w') = Some t) /\
   (Server.stmt_fails (faults env) = false ->
    Server.db (server w') =
      Some (Server.mkTable
              (filter (fun r => negb (Server.row_id r =? n)) (Server.rows t))
              (Server.seq t)))).
Proof.
  intros He Hn. cbn zeta.
  pose proof (deleteEvent_run env (IdNum n) w) as H. cbn zeta in H.
  rewrite He, Hn in H. destruct H as (reads & _ & _ & Ha).
  split; [exact Ha|].
  rewrite (deleteEvent_server env (IdNum n) w He), Hn.
  unfold Server.post_events_delete, Server.run_delete. cbn [json_id].
  split.
  - intros Hd. rewrite Hd. exact Hd.
  - intros Hd. rewrite Hd. split; intros Hs; rewrite Hs; cbn; [exact Hd|].
    reflexivity.
Qed.

Lemma digit_not_space (c : ascii) : is_digit c = true -> is_space c = false.
Proof.
  unfold is_digit, is_space. cbn zeta. intros H.
  apply andb_true_iff in H. destruct H as [H1 H2].
  apply Nat.leb_le in H1. apply Nat.leb_le in H2.
  apply orb_false_iff. split.
  - apply andb_false_iff. right. apply Nat.leb_gt. lia.
  - apply Nat.eqb_neq. lia.
Qed.

Lemma mantissa_is_literal (s : string) :
  mantissa_ok s = true -> unsigned_literal_prefix s = true.
Proof.
  unfold mantissa_ok, unsigned_literal_prefix.
  destruct (starts_with_digit s) eqn:E;
    [intros _; rewrite orb_true_r; reflexivity|].
  destruct s as [|c r]; [discriminate|].
  intros H. apply andb_true_iff in H. destruct H as [Hc Hf].
  unfold fraction_ok in Hf. apply andb_true_iff in Hf. destruct Hf as [Hd _].
  rewrite Hc, Hd. apply orb_true_r.
Qed.

Lemma mantissa_no_space (s : string) :
  mantissa_ok s = true -> trimStart s = s.
Proof.
  unfold mantissa_ok. destruct s as [|c r]; [reflexivity|].
  cbn [starts_with_digit trimStart].
  destruct (is_digit c) eqn:E.
  - intros _. rewrite (digit_not_space c E). reflexivity.
  - intros H. apply andb_true_iff in H. destruct H as [Hc _].
    apply Ascii.eqb_eq in Hc. subst c. reflexivity.
Qed.

(** X19. Text that is a valid number passes the input unchanged and is
    read by [parseFloat] as a decimal literal: what reaches the form is
    the number the text denotes, never the [NaN] of a failed parse. *)
Theorem valid_number_is_parsed (typed : string) (f : FormData) :
  valid_floating_point_number typed = true ->
  input_number_value typed = typed /\
  parseFloat typed = StrDecimalLiteral_value typed /\
  lat (onChange_lat (input_number_value typed) f) =
    Some (StrDecimalLiteral_value typed) /\
  lng (onChange_lng (input_number_value typed) f) =
    Some (StrDecimalLiteral_value typed).
Proof.
  intros Hv.
  assert (Hin : input_number_value typed = typed)
    by (unfold input_number_value; rewrite Hv; reflexivity).
  assert (Hp : parseFloat typed = StrDecimalLiteral_value typed).
  { unfold parseFloat, valid_floating_point_number in *.
    destruct typed as [|c r]; [discriminate|].
    destruct (Ascii.eqb_spec c "-") as [->|Hm].
    - cbn [trimStart]. change (is_space "-") with false. cbn iota.
      unfold literal_prefix. cbn. rewrite (mantissa_is_literal r Hv).
      reflexivity.
    - rewrite (mantissa_no_space _ Hv). unfold literal_prefix.
      destruct (Ascii.eqb_spec c "+") as [->|Hp]; [discriminate|].
      destruct (Ascii.eqb_spec c "-") as [->|_]; [congruence|]. cbn [orb].
      rewrite (mantissa_is_literal _ Hv). reflexivity. }
  split; [exact Hin|]. split; [exact Hp|].
  unfold onChange_lat, onChange_lng. rewrite Hin, Hp. split; reflexivity.
Qed.

(** X20. The Drive flag of the client and the session of the server.
    After [checkGoogleStatus] against a reachable server the flag is on
    exactly when the session holds tokens; when the server is not reached
    the flag stays as it was; the message the callback page posts switches
    it on and any other message leaves it alone.  None of this sends a
    write or shows an alert.  The callback itself does not change what
    the status route answers: it puts the tokens in a session whose
    cookie is never sent (the cookie is [secure], the server speaks plain
    HTTP).  So for a browser that was not connected, the flag the message
    switched on is backed by nothing: the next [checkGoogleStatus]
    switches it off again. *)
Theorem drive_flag_follows_session (w : World) (type : option string) :
  (let w' := snd (checkGoogleStatus true w) in
   (isGoogleConnected (app w') = true <-> Server.tokens (server w) <> None) /\
   calls w' = calls w /\ alerts w' = alerts w /\ server w' = server w) /\
  (let w' := snd (checkGoogleStatus false w) in
   app w' = app w /\ alerts w' = alerts w /\ server w' = server w) /\
  isGoogleConnected (app (snd (handleMessage (Some "GOOGLE_AUTH_SUCCESS") w))) =
    true /\
  (type <> Some "GOOGLE_AUTH_SUCCESS" -> snd (handleMessage type w) = w) /\
  (forall exchanged,
     Server.auth_status (snd (Server.auth_callback exchanged (server w))) =
       Server.auth_status (server w)) /\
  (forall tk,
     Server.tokens (server w) = None ->
     let w1 := with_server (snd (Server.auth_callback (Some tk) (server w))) w in
     let w2 := snd (handleMessage (Some "GOOGLE_AUTH_SUCCESS") w1) in
     isGoogleConnected (app w2) = true /\
     isGoogleConnected (app (snd (checkGoogleStatus true w2))) = false).
Proof.
  split; [|split; [|split; [|split; [|split]]]].
  - cbn zeta. unfold checkGoogleStatus, fetch_auth_status, Server.auth_status.
    unfold_M. cbn. repeat split; try reflexivity.
    + destruct (Server.tokens (server w)); cbn; congruence.
    + destruct (Server.tokens (server w)); cbn; congruence.
  - cbn zeta. unfold checkGoogleStatus, fetch_auth_status. unfold_M. cbn.
    repeat split; reflexivity.
  - reflexivity.
  - intros Ht. unfold handleMessage. destruct type as [s|]; [|reflexivity].
    destruct (String.eqb_spec s "GOOGLE_AUTH_SUCCESS") as [->|_];
      [congruence | reflexivity].
  - intros [tk|]; reflexivity.
  - intros tk Ht. cbn zeta. split; [reflexivity|].
    unfold checkGoogleStatus, fetch_auth_status, Server.auth_status.
    unfold_M. cbn. rewrite Ht. reflexivity.
Qed.

End DeleteAndInputFacts.

(* ================================================================== *)
(** ** The further properties on concrete runs *)
(* ================================================================== *)

Section MoreRuns.

Import Demo Server Cache Routes Connection.

Lemma cached_ids_ok : ids_ok (mkTable [cached_row] 1).
Proof.
  split; [repeat constructor; intros [] | intros r [<-|[]]; cbn; lia].
Qed.

Lemma cached_clean : table_clean (mkTable [cached_row] 1).
Proof.
  intros r [<-|[]]. unfold row_clean, no_empty. cbn.
  repeat (split; [discriminate|]).
  eexists. split; [reflexivity | discriminate].
Qed.

Lemma cache_ids_stay_distinct_witness :
  exists t', db (snd (run busy_day caching_server)) = Some t' /\ ids_ok t'.
Proof.
  apply (cache_ids_stay_distinct busy_day caching_server
           (mkTable [cached_row] 1) eq_refl cached_ids_ok).
Defined.

Lemma cache_rows_stay_clean_witness :
  exists t', db (snd (run busy_day caching_server)) = Some t' /\
             table_clean t'.
Proof.
  apply (cache_rows_stay_clean busy_day caching_server
           (mkTable [cached_row] 1) eq_refl cached_clean).
Defined.

Lemma cache_insert_then_list_witness :
  exists l l',
    get_events no_faults caching_server = mkResponse 200 (EventsBody l) /\
    Permutation l [cached_row] /\
    get_events no_faults
      (snd (post_events no_faults 1710158400500
              (JSON_of_formData iftar_form) caching_server)) =
      mkResponse 200 (EventsBody l') /\
    Permutation l'
      ([cached_row] ++
       [mkRow 2 (insert_values 1710158400500 (JSON_of_formData iftar_form))]) /\
    fst (post_events no_faults 1710158400500 (JSON_of_formData iftar_form)
           caching_server) = mkResponse 200 (SuccessId 2) /\
    In (mkRow 2 (insert_values 1710158400500 (JSON_of_formData iftar_form))) l' /\
    List.length l' = 2%nat.
Proof.
  apply (cache_insert_then_list no_faults 1710158400500
           (JSON_of_formData iftar_form) caching_server
           (mkTable [cached_row] 1) eq_refl eq_refl).
Defined.

Lemma cache_insert_then_delete_witness :
  db (snd (post_events_delete no_faults (JIdNum 2)
             (snd (post_events no_faults 1710158400500
                     (JSON_of_formData iftar_form) caching_server)))) =
    Some (mkTable [cached_row] 2).
Proof.
  apply (cache_insert_then_delete no_faults 1710158400500
           (JSON_of_formData iftar_form) caching_server
           (mkTable [cached_row] 1) eq_refl eq_refl cached_ids_ok).
Defined.

Lemma cache_delete_exact_and_idempotent_witness :
  let st' := snd (post_events_delete no_faults (JIdNum 1) caching_server) in
  rows_of st' = [] /\
  post_events_delete no_faults (JIdNum 1) st' =
    (mkResponse 200 SuccessBody, st').
Proof.
  intros st'.
  destruct (cache_delete_exact_and_idempotent no_faults 1 caching_server
              (mkTable [cached_row] 1) eq_refl eq_refl) as (H1 & _ & H3).
  split; [exact H1 | exact H3].
Defined.

Lemma session_stays_connected_witness :
  tokens (snd (run busy_day connected_server)) <> None.
Proof.
  apply (session_stays_connected busy_day connected_server). discriminate.
Defined.

Lemma unconnected_session_never_reaches_drive_witness :
  drive (snd (run busy_day caching_server)) = [] /\
  drive_calls (snd (run busy_day caching_server)) = [].
Proof.
  destruct (unconnected_session_never_reaches_drive busy_day caching_server
              eq_refl eq_refl) as (_ & Hd & Hc & _).
  split; [exact Hd | exact Hc].
Defined.

(** The folder is created, the file is refused: a 500, and an empty
    folder in the Drive. *)
Lemma failed_export_leaves_no_file_witness :
  let out := post_drive_save (mkFaults false false false true) 1710158400500
               (drive_body (JSON_of_formData iftar_form)) connected_server in
  fst out = mkResponse 500 (ErrorBody "Failed to save to Drive") /\
  drive (snd out) =
    [mkDriveFile 1 folder_name folder_mimeType [] None false].
Proof.
  intros out.
  apply (failed_export_leaves_no_file (mkFaults false false false true)
           1710158400500 (drive_body (JSON_of_formData iftar_form))
           connected_server);
    [discriminate | reflexivity | reflexivity | reflexivity
    | right; reflexivity].
Defined.

Lemma export_folder_not_duplicated_witness :
  let out := post_drive_save no_faults 1710158400500
               (drive_body (JSON_of_formData iftar_form)) connected_server in
  List.length (list_folders (drive (snd out))) = 1%nat.
Proof.
  intros out.
  destruct (export_folder_not_duplicated no_faults 1710158400500
              (drive_body (JSON_of_formData iftar_form)) connected_server)
    as [_ H].
  destruct (H eq_refl) as [_ H1]. apply H1. reflexivity.
Defined.


Import App.

Lemma read_failures_are_silent_witness :
  let w := browsing no_filters down_supabase down_firestore in
  events (app (snd (fetchEvents w))) = events (app w) /\
  alerts (snd (fetchEvents w)) = alerts w.
Proof.
  intros w.
  destruct (read_failures_are_silent w) as (_ & Ha & _ & He & _).
  split; [|exact Ha]. apply (He eq_refl unavailable). reflexivity.
Defined.

Lemma fallback_lists_every_match_witness :
  In (event_of_doc march_doc)
     (fallback_events (mkFilters "Dhaka" "sav" "" "")
        [old_doc; undated_doc; march_doc; april_doc]).
Proof.
  destruct (fallback_lists_every_match (mkFilters "Dhaka" "sav" "" "")
              [old_doc; undated_doc; march_doc; april_doc]) as (_ & Hall & _).
  apply (Hall march_doc).
  - right; right; left; reflexivity.
  - intros _. reflexivity.
  - intros H. exfalso. apply H. reflexivity.
  - intros _. exists "SAVAR", "", "ar". split; reflexivity.
  - intros H. exfalso. apply H. reflexivity.
Defined.

Lemma relaxing_filters_keeps_events_witness :
  In (event_of_doc march_doc)
     (fallback_events (mkFilters "Dhaka" "" "" "")
        [old_doc; undated_doc; march_doc; april_doc]).
Proof.
  apply (relaxing_filters_keeps_events (mkFilters "Dhaka" "sav" "" "")
           (mkFilters "Dhaka" "" "" "")
           [old_doc; undated_doc; march_doc; april_doc]).
  - repeat split; auto.
  - vm_compute. left. reflexivity.
Defined.

Lemma equal_dates_keep_snapshot_order_witness :
  fallback_events no_filters [undated_doc; later_undated_doc] =
    [event_of_doc undated_doc; event_of_doc later_undated_doc].
Proof.
  rewrite (equal_dates_keep_snapshot_order no_filters
             [undated_doc; later_undated_doc]); [reflexivity|].
  intros d d' [<-|[<-|[]]] [<-|[<-|[]]]; reflexivity.
Defined.

Lemma submit_guard_and_release_witness :
  let w := start true iftar_form connected_server up_supabase down_firestore in
  isSubmitting
    (app (snd (handleSubmit (calm 1710158400123 1710158400500) w))) = false.
Proof.
  intros w.
  apply (submit_guard_and_release (calm 1710158400123 1710158400500) w).
  reflexivity.
Defined.

Lemma accepted_submission_request_order_witness :
  let w := start true iftar_form connected_server up_supabase down_firestore in
  isGoogleConnected
    (app (snd (handleSubmit (calm 1710158400123 1710158400500) w))) =
  isGoogleConnected (app w).
Proof.
  intros w.
  apply (accepted_submission_request_order
           (calm 1710158400123 1710158400500) w eq_refl eq_refl).
Defined.

Lemma accepted_submission_caches_one_row_witness :
  let w := start false iftar_form caching_server up_supabase up_firestore in
  db (server (snd (handleSubmit (calm 1710158400123 1710158400500) w))) =
    Some (mkTable
            ([cached_row] ++
               [mkRow 2 (row_of_form iftar_form (toISOString 1710158400123))])
            2).
Proof.
  intros w.
  apply (accepted_submission_caches_one_row
           (calm 1710158400123 1710158400500) w (mkTable [cached_row] 1)
           eq_refl eq_refl eq_refl); reflexivity.
Defined.

Lemma numeric_id_leaves_firestore_copy_witness :
  exists sent,
    calls (snd (deleteEvent (Some delete_password) true (calm 0 0) (IdNum 1)
                  (start false iftar_form caching_server up_supabase
                     stocked_firestore))) = [] ++ sent /\
    forall s, ~ In (call_deleteDoc s) sent.
Proof.
  apply (numeric_id_leaves_firestore_copy (Some delete_password) true
           (calm 0 0) 1 (IdNum 1)
           (start false iftar_form caching_server up_supabase
              stocked_firestore)).
Defined.

Lemma accepted_delete_reaches_cache_witness :
  let w := start false iftar_form caching_server up_supabase stocked_firestore in
  let w' := snd (deleteEvent (Some delete_password) true (calm 0 0) (IdNum 1) w) in
  alerts w' = alerts w /\ db (server w') = Some (mkTable [] 1).
Proof.
  intros w w'.
  destruct (accepted_delete_reaches_cache (calm 0 0) 1 w
              (mkTable [cached_row] 1) eq_refl eq_refl) as (Ha & _ & Hd).
  split; [exact Ha|]. apply (Hd eq_refl). reflexivity.
Defined.

Lemma valid_number_is_parsed_witness :
  valid_floating_point_number "23.81" = true /\
  lat (onChange_lat (input_number_value "23.81") iftar_form) =
    Some (StrDecimalLiteral_value "23.81").
Proof.
  split; [reflexivity|].
  apply (valid_number_is_parsed "23.81" iftar_form). reflexivity.
Defined.

Lemma drive_flag_follows_session_witness :
  let w := start false iftar_form connected_server up_supabase up_firestore in
  isGoogleConnected (app (snd (checkGoogleStatus true w))) = true /\
  snd (handleMessage (Some "resize") w) = w.
Proof.
  intros w.
  destruct (drive_flag_follows_session w (Some "resize"))
    as ((Hf & _) & _ & _ & Hm & _).
  split; [apply Hf; discriminate | apply Hm; discriminate].
Defined.

End MoreRuns.
